(** * x402 payment agent: the create -> verify -> settle flow

    A shallow embedding of [swarms/structs/x402_payment_agent.py],
    [swarms/tools/x402_payment_tool.py] and [x402/clients/base.py].

    Python dictionaries are finite maps from strings to Python values,
    the agent object and the record of the calls it issued are threaded
    through a state-and-exception monad, and everything that lives outside
    the repository (the network, the process environment, the optional
    [eth_account] package, the [json] module) is a field of a [World]. *)

From stdpp Require Import gmap strings list fin_maps.
From Stdlib Require Import ZArith Ascii Lia.

#[local] Set Warnings "-register-all".
#[local] Open Scope Z_scope.

(** ** Python values *)

(** A Python [float] is carried by its [repr], the text that both [str()]
    and the JSON encoder print for it. *)
Record pyfloat := PyFloat { float_repr : string }.

Inductive value :=
| VNone
| VBool (b : bool)
| VInt (z : Z)
| VFloat (f : pyfloat)
| VStr (s : string)
| VList (l : list value)
| VDict (d : gmap string value).

Abbreviation dict := (gmap string value).

(** An exception: the class name and [str(e)]. *)
Record exn := Exn { exn_class : string; exn_str : string }.

(** The outcome of running a piece of Python: a value or a raised exception. *)
Inductive res (A : Type) :=
| Ok (a : A)
| Raise (e : exn).
Arguments Ok {A} a.
Arguments Raise {A} e.

Definition type_name (v : value) : string :=
  match v with
  | VNone => "NoneType"
  | VBool _ => "bool"
  | VInt _ => "int"
  | VFloat _ => "float"
  | VStr _ => "str"
  | VList _ => "list"
  | VDict _ => "dict"
  end.

(** [bool(v)] *)
Definition truthy (v : value) : bool :=
  match v with
  | VNone => false
  | VBool b => b
  | VInt z => negb (z =? 0)
  | VFloat f => negb (String.eqb (float_repr f) "0.0" || String.eqb (float_repr f) "-0.0")
  | VStr s => negb (String.eqb s "")
  | VList l => match l with [] => false | _ => true end
  | VDict d => negb (bool_decide (d = ∅))
  end.

(** [a or b] *)
Definition py_or (a b : value) : value := if truthy a then a else b.

(** An [Optional[str]] as a Python value. *)
Definition of_opt (o : option string) : value :=
  match o with Some s => VStr s | None => VNone end.

(** Truth value of an [Optional[str]]: [None] and [""] are false. *)
Definition truthy_opt (o : option string) : bool := truthy (of_opt o).

Definition or_opt (a b : option string) : option string :=
  if truthy_opt a then a else b.

(** [v.get(k, dflt)]: only a dict has the method. *)
Definition py_get (v : value) (k : string) (dflt : value) : res value :=
  match v with
  | VDict d => Ok (default dflt (d !! k))
  | _ => Raise (Exn "AttributeError"
                  ("'" +:+ type_name v +:+ "' object has no attribute 'get'"))
  end.

(** [d.get(k, dflt)] on a value known to be a dict. *)
Definition dict_get (d : dict) (k : string) (dflt : value) : value :=
  default dflt (d !! k).

(** Reading a value where the code compares it with integer bounds
    ([200 <= status < 300], [status >= 500]): an [int] goes through, [None]
    and the other non-numbers raise [TypeError].  No other numeric type ever
    reaches these comparisons: a status is written from [resp.status_code]
    or from the literal [0]. *)
Definition as_int (v : value) : res Z :=
  match v with
  | VInt z => Ok z
  | VBool b => Ok (if b then 1 else 0)
  | _ => Raise (Exn "TypeError"
                  ("'<=' not supported between instances of 'int' and '"
                     +:+ type_name v +:+ "'"))
  end.

(** [v == n] for an integer literal [n]; never raises. *)
Definition eq_int (v : value) (n : Z) : bool :=
  match v with
  | VInt z => z =? n
  | VBool b => (if b then 1 else 0) =? n
  | _ => false
  end.

Definition in_2xx (z : Z) : bool := (200 <=? z) && (z <? 300).

(** ** Strings *)

Definition slash : ascii := "/"%char.

(** [s.lstrip("/")] *)
Fixpoint lstrip_slash (s : string) : string :=
  match s with
  | String c r => if Ascii.eqb c slash then lstrip_slash r else s
  | EmptyString => EmptyString
  end.

(** [s.rstrip("/")] *)
Fixpoint rstrip_slash (s : string) : string :=
  match s with
  | EmptyString => EmptyString
  | String c r =>
      match rstrip_slash r with
      | EmptyString => if Ascii.eqb c slash then EmptyString else String c EmptyString
      | r' => String c r'
      end
  end.

(** [s.startswith(p)] *)
Fixpoint startswith (p s : string) : bool :=
  match p with
  | EmptyString => true
  | String a p' =>
      match s with
      | String b s' => Ascii.eqb a b && startswith p' s'
      | EmptyString => false
      end
  end.

(** [priv] with a leading ["0x"] ensured, as [init_wallet] and [_sign_eip712]
    do before handing the key to [eth_account]. *)
Definition with_0x (priv : option string) : option string :=
  match priv with
  | Some p => if truthy_opt priv && negb (startswith "0x" p) then Some ("0x" +:+ p) else priv
  | None => None
  end.

(** ** A JSON reader

    [json.loads] belongs to the standard library and [resp.json()] to
    [httpx]: what they return, or that they raise, is given by the world
    (the field [json_loads] of a [World], the field [resp_json] of a
    [response]).  The reader below is what the concrete worlds of this
    development put there.  It reads as CPython 3.11 does with its default
    settings: optional white space, one JSON value, optional white space; a
    number with a fraction or an exponent is the nearest binary64 float,
    carried by its [repr]; an integer literal of more than 4300 digits is
    refused, and so is nesting deeper than 994, the depth [json.loads]
    follows under the default recursion limit when its caller was called
    from the top level of a script (the depth left depends on the Python
    stack in use).  Recursion is followed with fuel; the reader starts with
    more fuel than the text has characters to spend. *)

Definition dquote : ascii := "034"%char.
Definition backslash : ascii := "\"%char.

Definition code (c : ascii) : Z := Z.of_nat (nat_of_ascii c).
Definition chr (z : Z) : ascii := ascii_of_nat (Z.to_nat z).

Definition is_ws (c : ascii) : bool :=
  (code c =? 32) || (code c =? 9) || (code c =? 10) || (code c =? 13).

Fixpoint skip_ws (s : string) : string :=
  match s with
  | String c r => if is_ws c then skip_ws r else s
  | EmptyString => EmptyString
  end.

Definition is_digit (c : ascii) : bool := (48 <=? code c) && (code c <=? 57).

Definition hex_of (c : ascii) : option Z :=
  let n := code c in
  if (48 <=? n) && (n <=? 57) then Some (n - 48)
  else if (65 <=? n) && (n <=? 70) then Some (n - 55)
  else if (97 <=? n) && (n <=? 102) then Some (n - 87)
  else None.

Definition hex4 (a b c d : ascii) : option Z :=
  x ← hex_of a; y ← hex_of b; z ← hex_of c; w ← hex_of d;
  Some (((x * 16 + y) * 16 + z) * 16 + w).

(** UTF-8 bytes of a code point; an unpaired surrogate is written the same way. *)
Definition utf8 (cp : Z) : string :=
  if cp <? 128 then String (chr cp) ""
  else if cp <? 2048 then
    String (chr (192 + cp / 64)) (String (chr (128 + cp mod 64)) "")
  else if cp <? 65536 then
    String (chr (224 + cp / 4096))
      (String (chr (128 + (cp / 64) mod 64)) (String (chr (128 + cp mod 64)) ""))
  else
    String (chr (240 + cp / 262144))
      (String (chr (128 + (cp / 4096) mod 64))
         (String (chr (128 + (cp / 64) mod 64)) (String (chr (128 + cp mod 64)) ""))).

Definition is_high (u : Z) : bool := (55296 <=? u) && (u <=? 56319).
Definition is_low (u : Z) : bool := (56320 <=? u) && (u <=? 57343).

Definition simple_escape (e : ascii) : option string :=
  let n := code e in
  if n =? 34 then Some (String dquote "")
  else if n =? 92 then Some "\"
  else if n =? 47 then Some "/"
  else if n =? 98 then Some (String (chr 8) "")
  else if n =? 102 then Some (String (chr 12) "")
  else if n =? 110 then Some (String (chr 10) "")
  else if n =? 114 then Some (String (chr 13) "")
  else if n =? 116 then Some (String (chr 9) "")
  else None.

Definition prepend (p : string) (r : option (string * string)) : option (string * string) :=
  '(s, rest) ← r; Some (p +:+ s, rest).

Definition flush (hi : option Z) : string :=
  match hi with Some h => utf8 h | None => "" end.

(** The characters of a string literal, after its opening quote: the decoded
    text and what follows the closing quote.  [hi] is a high surrogate read
    from a [\u] escape and still waiting for its low half. *)
Fixpoint scan_string (s : string) (hi : option Z) : option (string * string) :=
  match s with
  | EmptyString => None
  | String c r =>
      if Ascii.eqb c dquote then Some (flush hi, r)
      else if Ascii.eqb c backslash then
        match r with
        | String e r1 =>
            if Ascii.eqb e "u" then
              match r1 with
              | String h1 (String h2 (String h3 (String h4 r2))) =>
                  match hex4 h1 h2 h3 h4, hi with
                  | Some u, Some h =>
                      if is_low u then
                        prepend (utf8 (65536 + (h - 55296) * 1024 + (u - 56320)))
                                (scan_string r2 None)
                      else if is_high u then prepend (utf8 h) (scan_string r2 (Some u))
                      else prepend (utf8 h +:+ utf8 u) (scan_string r2 None)
                  | Some u, None =>
                      if is_high u then scan_string r2 (Some u)
                      else prepend (utf8 u) (scan_string r2 None)
                  | None, _ => None
                  end
              | _ => None
              end
            else
              match simple_escape e with
              | Some t => prepend (flush hi +:+ t) (scan_string r1 None)
              | None => None
              end
        | EmptyString => None
        end
      else if code c <? 32 then None
      else prepend (flush hi +:+ String c "") (scan_string r None)
  end.

(** The longest prefix of digits, and the rest. *)
Fixpoint take_digits (s : string) : string * string :=
  match s with
  | String c r =>
      if is_digit c then let '(d, rest) := take_digits r in (String c d, rest)
      else ("", s)
  | EmptyString => ("", "")
  end.

Fixpoint digits_value (s : string) (acc : Z) : Z :=
  match s with
  | String c r => digits_value r (acc * 10 + (code c - 48))
  | EmptyString => acc
  end.

(** [s] without the prefix [p], when it has it. *)
Fixpoint strip_prefix (p s : string) : option string :=
  match p, s with
  | EmptyString, _ => Some s
  | String a p', String b s' => if Ascii.eqb a b then strip_prefix p' s' else None
  | _, _ => None
  end.

(** The magnitude of a binary64 float: zero, infinity, or [m * 2^q] with
    [0 < m < 2^53] and [-1074 <= q], where [2^52 <= m] unless [q = -1074]. *)
Inductive binary64 := B0 | BInf | BFin (m q : Z).

Definition binary64_eqb (a b : binary64) : bool :=
  match a, b with
  | B0, B0 | BInf, BInf => true
  | BFin m q, BFin m' q' => (m =? m') && (q =? q')
  | _, _ => false
  end.

(** [n/d * 2^-q] as a fraction. *)
Definition scale2 (n d q : Z) : Z * Z :=
  if 0 <=? q then (n, d * 2 ^ q) else (n * 2 ^ (- q), d).

(** [n * 10^e] as a fraction. *)
Definition scale10 (n e : Z) : Z * Z :=
  if 0 <=? e then (n * 10 ^ e, 1) else (n, 10 ^ (- e)).

(** [n/d] rounded to the nearest integer, a tie to the even one. *)
Definition round_half_even (n d : Z) : Z :=
  let q := n / d in
  let r := n mod d in
  if 2 * r <? d then q
  else if d <? 2 * r then q + 1
  else if Z.even q then q else q + 1.

(** The binary64 nearest to [n/d], for [0 < n] and [0 < d]. *)
Definition nearest (n d : Z) : binary64 :=
  let l := Z.log2 n - Z.log2 d in
  let '(a, b) := scale2 n d l in
  let e := if a <? b then l - 1 else l in       (* 2^e <= n/d < 2^(e+1) *)
  let q := Z.max (e - 52) (-1074) in
  let '(a, b) := scale2 n d q in
  let m := round_half_even a b in
  let '(m, q) := if m =? 2 ^ 53 then (2 ^ 52, q + 1) else (m, q) in
  if m =? 0 then B0 else if 971 <? q then BInf else BFin m q.

Fixpoint strip_zeros (s : string) : string :=
  match s with
  | String c r => if Ascii.eqb c "0" then strip_zeros r else s
  | EmptyString => EmptyString
  end.

(** [float()] of the digits [ds] times [10^e]: the magnitude. *)
Definition float_of_decimal (ds : string) (e : Z) : binary64 :=
  let sig := strip_zeros ds in
  let nd := Z.of_nat (String.length sig) in
  if nd =? 0 then B0
  else if 310 <? nd + e then BInf
  else if nd + e <? -330 then B0
  else let '(n, d) := scale10 (digits_value sig 0) e in nearest n d.

Fixpoint decimal_go (fuel : nat) (n : Z) (acc : string) : string :=
  match fuel with
  | O => acc
  | S f =>
      let acc' := String (chr (48 + n mod 10)) acc in
      if n <? 10 then acc' else decimal_go f (n / 10) acc'
  end.

(** The decimal digits of [n >= 0]. *)
Definition decimal (n : Z) : string := decimal_go (S (Z.to_nat (Z.log2 n))) n "".

Fixpoint zeros (n : nat) : string :=
  match n with O => "" | S k => String "0" (zeros k) end.

Fixpoint drop_trailing_zeros (s : string) : string :=
  match s with
  | String c r =>
      match drop_trailing_zeros r with
      | EmptyString => if Ascii.eqb c "0" then "" else String c ""
      | r' => String c r'
      end
  | EmptyString => EmptyString
  end.

(** [10^k <= n/d] *)
Definition le_pow10 (k n d : Z) : bool :=
  let '(a, b) := scale10 1 k in a * d <=? n * b.

Fixpoint log10_up (fuel : nat) (k n d : Z) : Z :=
  match fuel with
  | O => k
  | S f => if le_pow10 (k + 1) n d then log10_up f (k + 1) n d else k
  end.

Fixpoint log10_down (fuel : nat) (k n d : Z) : Z :=
  match fuel with
  | O => k
  | S f => if le_pow10 k n d then k else log10_down f (k - 1) n d
  end.

(** [floor (log10 (n/d))], searched around the estimate the binary logarithm
    gives. *)
Definition ilog10 (n d : Z) : Z :=
  let est := ((Z.log2 n - Z.log2 d) * 30103) / 100000 in
  log10_up 4 (log10_down 4 est n d) n d.

(** The shortest digits that read back as [m * 2^q], and among them the
    nearest: the digits and the power of ten they are scaled by. *)
Fixpoint shortest (fuel : nat) (k : Z) (m q e10 : Z) : Z * Z :=
  let s := e10 - k + 1 in
  let '(xn, xd) := scale2 m 1 (- q) in               (* the float, as a fraction *)
  let '(a, b) := scale10 1 s in                      (* 10^s = a/b *)
  let n := xn * b in let d := xd * a in              (* x / 10^s = n/d *)
  let lo := n / d in
  let hi := lo + 1 in
  let back (c : Z) := let '(cn, cd) := scale10 c s in
                      binary64_eqb (nearest cn cd) (BFin m q) in
  let r := n mod d in
  let lo_nearer := (2 * r <? d) || ((2 * r =? d) && Z.even lo) in
  match fuel with
  | O => (round_half_even n d, s)
  | S f =>
      match back lo, back hi with
      | true, true => (if lo_nearer then lo else hi, s)
      | true, false => (lo, s)
      | false, true => (hi, s)
      | false, false => shortest f (k + 1) m q e10
      end
  end.

(** The exponent as [repr] prints it: a sign and at least two digits. *)
Definition exponent_text (e : Z) : string :=
  let a := Z.abs e in
  (if e <? 0 then "-" else "+") +:+ (if a <? 10 then "0" else "") +:+ decimal a.

(** [repr] of a float, from its sign and magnitude. *)
Definition float_repr_of (neg : bool) (x : binary64) : string :=
  (if neg then "-" else "") +:+
  match x with
  | B0 => "0.0"
  | BInf => "inf"
  | BFin m q =>
      let '(xn, xd) := scale2 m 1 (- q) in
      let e10 := ilog10 xn xd in
      let '(c, s) := shortest 17 1 m q e10 in
      let all := decimal c in
      let ds := drop_trailing_zeros all in
      let decpt := Z.of_nat (String.length all) + s in
      let nd := Z.of_nat (String.length ds) in
      if (decpt <=? -4) || (16 <? decpt) then
        match ds with
        | String d0 rest =>
            String d0 (match rest with EmptyString => "" | _ => "." +:+ rest end)
            +:+ "e" +:+ exponent_text (decpt - 1)
        | EmptyString => ""
        end
      else if decpt <=? 0 then "0." +:+ zeros (Z.to_nat (- decpt)) +:+ ds
      else if nd <=? decpt then ds +:+ zeros (Z.to_nat (decpt - nd)) +:+ ".0"
      else String.substring 0 (Z.to_nat decpt) ds +:+ "." +:+
           String.substring (Z.to_nat decpt) (Z.to_nat (nd - decpt)) ds
  end.

Definition max_str_digits : nat := 4300.
Definition max_nesting : nat := 994.

(** A number: an optional minus sign, an integer part ([0] alone, or digits
    that do not start with [0]), then optionally a dot with digits, then
    optionally an exponent.  As in Python's scanner, what does not fit is
    left for the caller: in [01] the number is [0] and [1] is left over.
    Without fraction and exponent the number is an [int], refused beyond
    [max_str_digits] digits; otherwise it is a [float]. *)
Definition scan_number (s : string) : option (value * string) :=
  let '(neg, s1) :=
    match s with
    | String c r => if Ascii.eqb c "-" then (true, r) else (false, s)
    | EmptyString => (false, s)
    end in
  let '(ds, s2) := take_digits s1 in
  match ds with
  | EmptyString => None
  | String d0 dr =>
      let '(ip, s3) :=
        if Ascii.eqb d0 "0" then ("0", dr +:+ s2) else (ds, s2) in
      let '(frac, s4) :=
        match s3 with
        | String p r =>
            if Ascii.eqb p "." then
              match take_digits r with
              | (EmptyString, _) => (None, s3)
              | (fd, rest) => (Some fd, rest)
              end
            else (None, s3)
        | EmptyString => (None, s3)
        end in
      let '(ex, s5) :=
        match s4 with
        | String e r =>
            if Ascii.eqb e "e" || Ascii.eqb e "E" then
              let '(minus, r1) :=
                match r with
                | String g r' =>
                    if Ascii.eqb g "+" then (false, r')
                    else if Ascii.eqb g "-" then (true, r')
                    else (false, r)
                | EmptyString => (false, r)
                end in
              match take_digits r1 with
              | (EmptyString, _) => (None, s4)
              | (ed, rest) =>
                  (Some (if minus then - digits_value ed 0 else digits_value ed 0), rest)
              end
            else (None, s4)
        | EmptyString => (None, s4)
        end in
      match frac, ex with
      | None, None =>
          if (max_str_digits <? String.length ip)%nat then None
          else
            let n := digits_value ip 0 in
            Some (VInt (if neg then - n else n), s5)
      | _, _ =>
          let fd := default "" frac in
          let e := default 0 ex - Z.of_nat (String.length fd) in
          Some (VFloat (PyFloat (float_repr_of neg (float_of_decimal (ip +:+ fd) e))), s5)
      end
  end.

Definition scan_literal (s : string) : option (value * string) :=
  match strip_prefix "null" s with
  | Some r => Some (VNone, r)
  | None =>
  match strip_prefix "true" s with
  | Some r => Some (VBool true, r)
  | None =>
  match strip_prefix "false" s with
  | Some r => Some (VBool false, r)
  | None =>
  match scan_number s with
  | Some vr => Some vr
  | None =>
  match strip_prefix "NaN" s with
  | Some r => Some (VFloat (PyFloat "nan"), r)
  | None =>
  match strip_prefix "Infinity" s with
  | Some r => Some (VFloat (PyFloat "inf"), r)
  | None =>
  match strip_prefix "-Infinity" s with
  | Some r => Some (VFloat (PyFloat "-inf"), r)
  | None => None
  end end end end end end end.

Fixpoint scan_value (fuel depth : nat) (s : string) : option (value * string) :=
  match fuel with
  | O => None
  | S n =>
      match s with
      | String c r =>
          if Ascii.eqb c dquote then
            '(t, rest) ← scan_string r None; Some (VStr t, rest)
          else if Ascii.eqb c "{" then
            match depth with
            | O => None
            | S deeper =>
                match skip_ws r with
                | String c1 r1 =>
                    if Ascii.eqb c1 "}" then Some (VDict ∅, r1)
                    else scan_members n deeper (skip_ws r) ∅
                | EmptyString => None
                end
            end
          else if Ascii.eqb c "[" then
            match depth with
            | O => None
            | S deeper =>
                match skip_ws r with
                | String c1 r1 =>
                    if Ascii.eqb c1 "]" then Some (VList [], r1)
                    else scan_items n deeper (skip_ws r) []
                | EmptyString => None
                end
            end
          else scan_literal s
      | EmptyString => None
      end
  end
with scan_items (fuel depth : nat) (s : string) (acc : list value) : option (value * string) :=
  match fuel with
  | O => None
  | S n =>
      '(v, r) ← scan_value n depth s;
      match skip_ws r with
      | String c r1 =>
          if Ascii.eqb c "]" then Some (VList (rev (v :: acc)), r1)
          else if Ascii.eqb c "," then scan_items n depth (skip_ws r1) (v :: acc)
          else None
      | EmptyString => None
      end
  end
with scan_members (fuel depth : nat) (s : string) (acc : dict) : option (value * string) :=
  match fuel with
  | O => None
  | S n =>
      match s with
      | String c r =>
          if Ascii.eqb c dquote then
            '(k, r1) ← scan_string r None;
            match skip_ws r1 with
            | String c1 r2 =>
                if Ascii.eqb c1 ":" then
                  '(v, r3) ← scan_value n depth (skip_ws r2);
                  match skip_ws r3 with
                  | String c3 r4 =>
                      if Ascii.eqb c3 "}" then Some (VDict (<[k := v]> acc), r4)
                      else if Ascii.eqb c3 "," then
                        scan_members n depth (skip_ws r4) (<[k := v]> acc)
                      else None
                  | EmptyString => None
                  end
                else None
            | EmptyString => None
            end
          else None
      | EmptyString => None
      end
  end.

(** The value a JSON text stands for; [None] when reading it raises. *)
Definition read_json (s : string) : option value :=
  '(v, r) ← scan_value (2 * String.length s + 3) max_nesting (skip_ws s);
  match skip_ws r with
  | EmptyString => Some v
  | _ => None
  end.

(** A JSON string literal: the text between double quotes. *)
Definition quoted (s : string) : string := String dquote (s +:+ String dquote "").

(** ** The world outside the repository *)

Inductive method := GET | POST.

(** One call on the [httpx] client. *)
Record request := Request {
  req_method : method;
  req_url : string;
  req_headers : gmap string string;
  req_json : option value;      (* [json=] *)
  req_timeout : option Z        (* [timeout=]; [None]: the client's own *)
}.

(** What [httpx] hands back when the exchange completed. *)
Record response := Response {
  resp_status : Z;                       (* [resp.status_code] *)
  resp_json : option value;              (* [resp.json()]; [None]: it raises *)
  resp_text : string;                    (* [resp.text] *)
  resp_headers : gmap string string      (* [dict(resp.headers)] *)
}.

(** What has happened so far: the calls sent to the facilitator and the
    calls of the signing operation. *)
Inductive event :=
| EvHttp (r : request)
| EvSign (data : dict) (priv : option string).

(** The [eth_account] package, when it is installed. *)
Record eth_account := EthAccount {
  (* [Account.from_key(priv).address] *)
  from_key : option string -> res string;
  (* [encode_structured_data], [Account.sign_message], [.signature.hex()] *)
  sign_typed : dict -> option string -> res string
}.

Record World := {
  (* [os.getenv] *)
  getenv : string -> option string;
  (* the network and the facilitator behind it: the answer to a call, which
     may depend on everything that happened before; [Raise] is the exception
     [httpx] raises when no response was obtained *)
  transport : list event -> request -> res response;
  (* the module-level [Account]: [None] when the import failed *)
  Account : option eth_account;
  (* [json.loads] on a [str]; [None]: it raises.  Which exception is not
     recorded: the one caller catches [Exception] and drops it *)
  json_loads : string -> option value
}.

(** [os.getenv(k, dflt)] *)
Definition getenv_or (w : World) (k dflt : string) : string :=
  default dflt (getenv w k).

(** ** State and exceptions *)

Definition M (S A : Type) : Type := S -> res A * S.

Definition ret {S A} (a : A) : M S A := fun s => (Ok a, s).

Definition bind {S A B} (m : M S A) (k : A -> M S B) : M S B :=
  fun s => match m s with
           | (Ok a, s') => k a s'
           | (Raise e, s') => (Raise e, s')
           end.

Definition raise {S A} (e : exn) : M S A := fun s => (Raise e, s).

(** [try: m  except Exception as e: h e]; what [m] did before it raised stays done. *)
Definition try_ {S A} (m : M S A) (h : exn -> M S A) : M S A :=
  fun s => match m s with
           | (Ok a, s') => (Ok a, s')
           | (Raise e, s') => h e s'
           end.

Definition get {S} : M S S := fun s => (Ok s, s).
Definition modify {S} (f : S -> S) : M S unit := fun s => (Ok tt, f s).

(** A step that only computes. *)
Definition lift {S A} (r : res A) : M S A := fun s => (r, s).

Notation "x <- m ;; k" := (bind m (fun x => k))
  (at level 100, m at next level, right associativity).
Notation "m ;;; k" := (bind m (fun _ => k))
  (at level 100, right associativity).

(** ** Dictionaries in place *)

(** [d.setdefault(k, v)], for its effect on [d]. *)
Definition setdefault (k : string) (v : value) (d : dict) : dict :=
  match d !! k with
  | Some _ => d
  | None => <[k := v]> d
  end.

(** [d[k1][k2] = v] *)
Definition set_nested (k1 k2 : string) (v : value) (d : dict) : res dict :=
  match d !! k1 with
  | Some (VDict inner) => Ok (<[k1 := VDict (<[k2 := v]> inner)]> d)
  | Some other =>
      Raise (Exn "TypeError"
               ("'" +:+ type_name other +:+ "' object does not support item assignment"))
  | None => Raise (Exn "KeyError" ("'" +:+ k1 +:+ "'"))
  end.

(** [try: step1; step2; ...  except Exception: pass] on one dictionary:
    the steps done before one raises stay done. *)
Fixpoint best_effort (steps : list (dict -> res dict)) (d : dict) : dict :=
  match steps with
  | [] => d
  | f :: rest =>
      match f d with
      | Ok d' => best_effort rest d'
      | Raise _ => d
      end
  end.

(** [resp.json()], with the fallback every caller in this repository wraps
    around it: [{"text": resp.text}]. *)
Definition json_or_text (r : response) : value :=
  match resp_json r with
  | Some v => v
  | None => VDict {[ "text" := VStr (resp_text r) ]}
  end.

Definition headers_value (r : response) : value := VDict (VStr <$> resp_headers r).

Definition json_headers : gmap string string := {[ "Content-Type" := "application/json" ]}.

(** The result every call site builds for a call that raised. *)
Definition error_result (e : exn) : dict :=
  {[ "status_code" := VInt 0; "error" := VStr (exn_str e) ]}.

(** One call on an [httpx.Client], recorded. *)
Definition client_request (w : World) (req : request) : M (list event) response :=
  fun tr => (transport w tr req, tr ++ [EvHttp req]).

(** ** The agent: [X402PaymentAgent] *)

(** The attributes of the object, and the record of what it did. *)
Record agent := Agent {
  facilitator_url : string;
  wallet_private_key : option string;
  network : option string;
  wallet_address : option string;
  account : option string;          (* the account object, known by its address *)
  _facilitator_info : dict;
  trace : list event
}.

Definition set_facilitator_url (u : string) (a : agent) : agent :=
  Agent u (wallet_private_key a) (network a) (wallet_address a) (account a)
        (_facilitator_info a) (trace a).

Definition set_wallet (addr : string) (a : agent) : agent :=
  Agent (facilitator_url a) (wallet_private_key a) (network a) (Some addr) (Some addr)
        (_facilitator_info a) (trace a).

Definition set_facilitator_info (i : dict) (a : agent) : agent :=
  Agent (facilitator_url a) (wallet_private_key a) (network a) (wallet_address a)
        (account a) i (trace a).

Definition set_trace (t : list event) (a : agent) : agent :=
  Agent (facilitator_url a) (wallet_private_key a) (network a) (wallet_address a)
        (account a) (_facilitator_info a) t.

(** A step on the record of events, taken by the agent. *)
Definition on_trace {A} (m : M (list event) A) : M agent A :=
  fun a => let '(r, t) := m (trace a) in (r, set_trace t a).

Definition zero_address : string := "0x0000000000000000000000000000000000000000".

Definition default_facilitator_url : string := "https://facilitator.payai.network".
Definition default_mock_url : string := "http://127.0.0.1:8000".

Section Agent.

Variable w : World.

(** [self._http_client.get(url, timeout=timeout)] *)
Definition http_get (url : string) (timeout : Z) : M agent response :=
  on_trace (client_request w (Request GET url ∅ None (Some timeout))).

(** [self._http_client.post(url, headers=headers, json=body, timeout=timeout)] *)
Definition http_post (url : string) (body : dict) (timeout : Z) : M agent response :=
  on_trace (client_request w (Request POST url json_headers (Some (VDict body)) (Some timeout))).

Definition init_wallet : M agent string :=
  match Account w with
  | None =>
      raise (Exn "RuntimeError"
               "eth_account not installed; cannot initialize wallet from private key")
  | Some acc =>
      self <- get ;;
      addr <- lift (from_key acc (with_0x (wallet_private_key self))) ;;
      modify (set_wallet addr) ;;;
      ret addr
  end.

Definition discover_facilitator (timeout : Z) : M agent dict :=
  info <- try_
            (self <- get ;;
             r <- http_get (rstrip_slash (facilitator_url self) +:+ "/list") timeout ;;
             ret ({[ "status_code" := VInt (resp_status r);
                     "payload" := json_or_text r;
                     "headers" := headers_value r ]} : dict))
            (fun e => ret (error_result e)) ;;
  modify (set_facilitator_info info) ;;;
  ret info.

(** The JSON body [paid_api_call] sends. *)
Definition request_body (self : agent) (amount : pyfloat) (currency : string)
    (metadata : value) : dict :=
  let body : dict := {[ "amount" := VFloat amount; "currency" := VStr currency ]} in
  let body := if truthy metadata then <["metadata" := metadata]> body else body in
  let body := if truthy_opt (wallet_address self)
              then <["from_address" := of_opt (wallet_address self)]> body else body in
  if truthy_opt (network self) then <["network" := of_opt (network self)]> body else body.

Definition paid_api_call (path : string) (amount : pyfloat) (currency : string)
    (metadata : value) (timeout : Z) : M agent dict :=
  self <- get ;;
  let url := facilitator_url self +:+ "/" +:+ lstrip_slash path in
  let body := request_body self amount currency metadata in
  try_
    (resp <- http_post url body timeout ;;
     let result : dict := {[ "status_code" := VInt (resp_status resp);
                             "payload" := json_or_text resp;
                             "headers" := headers_value resp ]} in
     if negb (in_2xx (resp_status resp)) then
       let result := <["request_body" := VDict body]> result in
       let result := <["response_text" := VStr (resp_text resp)]> result in
       self1 <- get ;;
       if negb (truthy (VDict (_facilitator_info self1))) then
         try_
           (discover_facilitator 5 ;;;
            self2 <- get ;;
            ret (<["facilitator_info" := VDict (_facilitator_info self2)]> result))
           (fun _ => ret result)
       else ret result
     else ret result)
    (fun e => ret (error_result e)).

(** [{"memo": memo} if memo else None] *)
Definition memo_metadata (memo : option string) : value :=
  if truthy_opt memo then VDict {[ "memo" := of_opt memo ]} else VNone.

Definition create_payment_session (amount : pyfloat) (currency : string)
    (memo : option string) : M agent dict :=
  let metadata := memo_metadata memo in
  create_res <- paid_api_call "create_payment" amount currency metadata 30 ;;
  let status := dict_get create_res "status_code" (VInt 0) in
  if eq_int status 404 then
    verify_res <- paid_api_call "verify" amount currency metadata 30 ;;
    vstatus <- lift (as_int (dict_get verify_res "status_code" (VInt 0))) ;;
    if in_2xx vstatus then
      id0 <- lift (py_get (dict_get verify_res "payload" (VDict ∅)) "id" VNone) ;;
      let id := py_or id0 (dict_get verify_res "payload" VNone) in
      received <- lift (py_get (dict_get verify_res "payload" (VDict ∅)) "received"
                               (dict_get verify_res "payload" VNone)) ;;
      ret ({[ "status_code" := dict_get verify_res "status_code" VNone;
              "payload" := VDict {[ "id" := id;
                                    "status" := VStr "verified-as-create";
                                    "received" := received ]};
              "headers" := dict_get verify_res "headers" VNone ]} : dict)
    else ret verify_res
  else if eq_int status 400 then
    paid_api_call "verify" amount currency metadata 30 ;;;
    let create_res := setdefault "diagnostics" (VDict ∅) create_res in
    create_res <- lift (set_nested "diagnostics" "note"
                          (VStr "create_payment returned 400; see response_text and request_body")
                          create_res) ;;
    info <- discover_facilitator 5 ;;
    create_res <- lift (set_nested "diagnostics" "facilitator_list" (VDict info) create_res) ;;
    ret create_res
  else ret create_res.

Definition _build_eip712_intent (self : agent) (amount : pyfloat) (currency : string)
    (memo : option string) : dict :=
  let field (n t : string) : value := VDict {[ "name" := VStr n; "type" := VStr t ]} in
  let domain : dict :=
    {[ "name" := VStr "x402 Payment";
       "version" := VStr "1";
       "chainId" := VInt 1;
       "verifyingContract" := VStr zero_address ]} in
  let types : dict :=
    {[ "EIP712Domain" := VList [ field "name" "string"; field "version" "string";
                                 field "chainId" "uint256";
                                 field "verifyingContract" "address" ];
       "Payment" := VList [ field "from" "address"; field "to" "address";
                            field "amount" "string"; field "currency" "string";
                            field "memo" "string"; field "network" "string" ] ]} in
  let message : dict :=
    {[ "from" := of_opt (or_opt (wallet_address self) (Some zero_address));
       "to" := of_opt (or_opt (getenv w "PAYAI_MERCHANT_ADDRESS")
                              (or_opt (getenv w "ADDRESS") (Some zero_address)));
       "amount" := VStr (float_repr amount);
       "currency" := VStr currency;
       "memo" := of_opt (or_opt memo (Some ""));
       "network" := of_opt (or_opt (network self) (Some "")) ]} in
  {[ "types" := VDict types; "domain" := VDict domain;
     "primaryType" := VStr "Payment"; "message" := VDict message ]}.

(** The signing operation of [eth_account], recorded. *)
Definition sign_call (acc : eth_account) (data : dict) (priv : option string) : M agent string :=
  on_trace (fun t => (sign_typed acc data priv, t ++ [EvSign data priv])).

Definition _sign_eip712 (structured_data : dict) : M agent (option string) :=
  match Account w with
  | None => ret None
  | Some acc =>
      try_
        (self <- get ;;
         sig <- sign_call acc structured_data (with_0x (wallet_private_key self)) ;;
         ret (Some sig))
        (fun _ => ret None)
  end.

(** The JSON body of the signed verify. *)
Definition signed_body (self : agent) (structured : dict) (signature : option string) : dict :=
  {[ "eip712" := VDict structured;
     "signature" := of_opt signature;
     "from_address" := of_opt (wallet_address self);
     "network" := of_opt (network self) ]}.

Definition verify_with_signature (amount : pyfloat) (currency : string)
    (memo : option string) : M agent dict :=
  self <- get ;;
  let structured := _build_eip712_intent self amount currency memo in
  signature <- _sign_eip712 structured ;;
  let body := signed_body self structured signature in
  let url := rstrip_slash (facilitator_url self) +:+ "/verify" in
  try_
    (resp <- http_post url body 30 ;;
     ret ({[ "status_code" := VInt (resp_status resp);
             "payload" := json_or_text resp;
             "headers" := headers_value resp;
             "request_body" := VDict body ]} : dict))
    (fun e => ret (<["request_body" := VDict body]> (error_result e))).

Definition skip_verify : dict :=
  {[ "status_code" := VInt 0; "error" := VStr "create failed; skipping verify" ]}.

Definition skip_settle : dict :=
  {[ "status_code" := VInt 0; "error" := VStr "verify failed; skipping settle" ]}.

(** The verify stage of [complete_payment_flow], given the [result] so far. *)
Definition verify_stage (result : dict) (amount : pyfloat) (currency : string)
    (memo : option string) (timeout : Z) : M agent dict :=
  status_v <- lift (py_get (dict_get result "create" (VDict ∅)) "status_code" (VInt 0)) ;;
  status <- lift (as_int status_v) ;;
  if in_2xx status then
    paid_api_call "verify" amount currency (memo_metadata memo) timeout
  else if (status =? 400) || (status =? 404) then
    verify_res <- paid_api_call "verify" amount currency (memo_metadata memo) timeout ;;
    vstatus <- lift (as_int (dict_get verify_res "status_code" (VInt 0))) ;;
    if negb (in_2xx vstatus) then
      sig_res <- verify_with_signature amount currency memo ;;
      sstatus <- lift (as_int (dict_get sig_res "status_code" (VInt 0))) ;;
      if in_2xx sstatus then ret sig_res
      else
        ret (best_effort
               [ (fun d => Ok (setdefault "diagnostics" (VDict ∅) d));
                 set_nested "diagnostics" "create_response" (dict_get result "create" VNone);
                 set_nested "diagnostics" "signature_attempt" (VDict sig_res) ]
               verify_res)
    else
      ret (best_effort
             [ (fun d => Ok (setdefault "diagnostics" (VDict ∅) d));
               set_nested "diagnostics" "create_response" (dict_get result "create" VNone) ]
             verify_res)
  else ret skip_verify.

(** The settle stage of [complete_payment_flow], given the [result] so far. *)
Definition settle_stage (result : dict) (amount : pyfloat) (currency : string)
    (memo : option string) (timeout : Z) : M agent dict :=
  vstatus_v <- lift (py_get (dict_get result "verify" (VDict ∅)) "status_code" (VInt 0)) ;;
  vstatus <- lift (as_int vstatus_v) ;;
  if in_2xx vstatus then
    paid_api_call "settle" amount currency (memo_metadata memo) timeout
  else if (vstatus =? 400) || (vstatus =? 404) then
    settle_res <- paid_api_call "settle" amount currency (memo_metadata memo) timeout ;;
    ret (best_effort
           [ (fun d => Ok (setdefault "diagnostics" (VDict ∅) d));
             set_nested "diagnostics" "verify_response" (dict_get result "verify" VNone) ]
           settle_res)
  else ret skip_settle.

(** The create stage of [complete_payment_flow]: the first [try] block, on
    the empty [result]. *)
Definition create_stage (amount : pyfloat) (currency : string) (memo : option string)
    : M agent dict :=
  try_
    (create_res <- create_payment_session amount currency memo ;;
     ret (<["create" := VDict create_res]> (∅ : dict)))
    (fun e => ret (<["create" := VDict (error_result e)]> (∅ : dict))).

Definition complete_payment_flow (amount : pyfloat) (currency : string)
    (memo : option string) (timeout : Z) : M agent dict :=
  result <- create_stage amount currency memo ;;
  result <- try_
              (verify_res <- verify_stage result amount currency memo timeout ;;
               ret (<["verify" := VDict verify_res]> result))
              (fun e => ret (<["verify" := VDict (error_result e)]> result)) ;;
  result <- try_
              (settle_res <- settle_stage result amount currency memo timeout ;;
               ret (<["settle" := VDict settle_res]> result))
              (fun e => ret (<["settle" := VDict (error_result e)]> result)) ;;
  ret result.

(** The mock facilitator the agent falls back to. *)
Definition mock_url : string := getenv_or w "MOCK_FACILITATOR_URL" default_mock_url.

(** The liveness test of the constructor:
    [info.get("status_code", 0) == 0 or info.get("status_code") >= 500]. *)
Definition unusable (info : dict) : res bool :=
  if eq_int (dict_get info "status_code" (VInt 0)) 0 then Ok true
  else match as_int (dict_get info "status_code" VNone) with
       | Ok z => Ok (500 <=? z)
       | Raise e => Raise e
       end.

(** Fall back to the mock facilitator and probe it, whatever the probe gives. *)
Definition fall_back : M agent unit :=
  modify (set_facilitator_url mock_url) ;;;
  try_ (discover_facilitator 5 ;;; ret tt) (fun _ => ret tt).

(** The body of the constructor, from the assignment of
    [self.facilitator_url] on.  The two calls the source makes outside any
    [try], the base class constructor at the very start and
    [httpx.Client(timeout=30)] before the wallet, have returned here; they
    are put in front of this body in [new_X402PaymentAgent]. *)
Definition __init__ (facilitator_url0 : string) (wallet_private_key0 network0 : option string)
    : M agent unit :=
  modify (fun a =>
            Agent (rstrip_slash (getenv_or w "FACILITATOR_URL" facilitator_url0))
                  (or_opt (or_opt wallet_private_key0 (getenv w "X402_PRIVATE_KEY"))
                          (getenv w "PAYAI_WALLET_PRIVATE_KEY"))
                  (or_opt network0 (getenv w "X402_NETWORK"))
                  None None (_facilitator_info a) (trace a)) ;;;
  self <- get ;;
  (if truthy_opt (wallet_private_key self)
   then try_ (init_wallet ;;; ret tt) (fun _ => ret tt)
   else ret tt) ;;;
  modify (set_facilitator_info ∅) ;;;
  try_
    (info <- discover_facilitator 3 ;;
     bad <- lift (unusable info) ;;
     if bad then fall_back else ret tt)
    (fun _ => fall_back).

(** [X402PaymentAgent(facilitator_url, wallet_private_key, network)], built
    after the events [t], once the base class constructor and the HTTP
    client are there. *)
Definition X402PaymentAgent (facilitator_url0 : string)
    (wallet_private_key0 network0 : option string) (t : list event) : res unit * agent :=
  __init__ facilitator_url0 wallet_private_key0 network0 (Agent "" None None None None ∅ t).

(** What the constructor calls outside its own [try] blocks: the
    constructor of the base class [Agent] of [swarms.structs.agent], which
    is not among these sources and receives the remaining positional and
    keyword arguments, and [httpx.Client(timeout=30)].  Each returns or
    raises. *)
Record setup := Setup {
  super_init : res unit;      (* [super().__init__] on the remaining arguments *)
  new_client : res unit       (* [httpx.Client(timeout=30)] *)
}.

(** [X402PaymentAgent(facilitator_url, wallet_private_key, network, ...)] as
    the caller runs it, after the events [t]: the base class constructor,
    the HTTP client, then the body [__init__].  An exception of one of the
    two calls leaves the constructor at once: there is no agent, and nothing
    was sent. *)
Definition new_X402PaymentAgent (su : setup) (facilitator_url0 : string)
    (wallet_private_key0 network0 : option string) (t : list event)
    : res agent * list event :=
  match super_init su with
  | Raise e => (Raise e, t)
  | Ok _ =>
      match new_client su with
      | Raise e => (Raise e, t)
      | Ok _ =>
          let '(r, a) := X402PaymentAgent facilitator_url0 wallet_private_key0 network0 t in
          (match r with Ok _ => Ok a | Raise e => Raise e end, trace a)
      end
  end.

(** ** The tool: [x402_payment_tool] *)

Definition _derive_address_from_private_key (priv : option string) : option string :=
  if negb (truthy_opt priv) then None
  else match Account w with
       | None => None
       | Some acc =>
           match from_key acc priv with
           | Ok addr => Some addr
           | Raise _ => None
           end
       end.

(** [a or dflt] where [dflt] is a string literal. *)
Definition or_str (a : option string) (dflt : string) : string :=
  if truthy_opt a then default dflt a else dflt.

(** The JSON body the tool sends. *)
Definition tool_payload (amount : pyfloat) (currency : string) (memo : option string)
    (private_key network0 : option string) : dict :=
  let private_key := or_opt (or_opt private_key (getenv w "X402_PRIVATE_KEY"))
                            (getenv w "PAYAI_WALLET_PRIVATE_KEY") in
  let network0 := or_opt network0 (getenv w "X402_NETWORK") in
  let payload : dict := {[ "amount" := VFloat amount; "currency" := VStr currency ]} in
  let payload := if truthy_opt memo
                 then <["metadata" := VDict {[ "memo" := of_opt memo ]}]> payload
                 else payload in
  let payload := if truthy_opt network0
                 then <["network" := of_opt network0]> payload else payload in
  let from_address := _derive_address_from_private_key private_key in
  if truthy_opt from_address then <["from_address" := of_opt from_address]> payload
  else payload.

(** The result the tool builds from a response: the body goes under ["body"]. *)
Definition tool_result (r : response) : dict :=
  {[ "status_code" := VInt (resp_status r);
     "body" := json_or_text r;
     "headers" := headers_value r ]}.

Definition tool_error (e : exn) (payload : dict) : dict :=
  <["request_body" := VDict payload]> (error_result e).

Definition x402_payment_tool (amount : pyfloat) (currency : string) (memo : option string)
    (facilitator_url0 private_key network0 : option string) : M (list event) dict :=
  let url0 := or_str (or_opt (or_opt facilitator_url0 (getenv w "FACILITATOR_URL"))
                             (getenv w "PAYAI_FACILITATOR_URL"))
                     default_facilitator_url in
  let payload := tool_payload amount currency memo private_key network0 in
  url <- try_
           (l <- client_request w (Request GET (rstrip_slash url0 +:+ "/list") ∅ None (Some 3)) ;;
            ret (if (resp_status l =? 0) || (500 <=? resp_status l) then mock_url else url0))
           (fun _ => ret mock_url) ;;
  created <- try_
               (resp <- client_request w
                          (Request POST (rstrip_slash url +:+ "/create_payment")
                                   json_headers (Some (VDict payload)) None) ;;
                ret (inl resp))
               (fun e => ret (inr (tool_error e payload))) ;;
  match created with
  | inr early => ret early
  | inl resp =>
      if resp_status resp =? 404 then
        try_
          (resp2 <- client_request w
                      (Request POST (rstrip_slash url +:+ "/verify")
                               json_headers (Some (VDict payload)) None) ;;
           ret (tool_result resp2))
          (fun e => ret (tool_error e payload))
      else ret (tool_result resp)
  end.

End Agent.

(** ** The header decoder: [x402/clients/base.py] *)

Definition decode_x_payment_response (w : World) (header_value : string) : value :=
  match json_loads w header_value with
  | Some v => v
  | None => VDict {[ "transaction" := VStr header_value ]}
  end.

(** The value of a character of the base64 alphabet. *)
Definition b64_value (c : ascii) : option Z :=
  let n := code c in
  if (65 <=? n) && (n <=? 90) then Some (n - 65)
  else if (97 <=? n) && (n <=? 122) then Some (n - 71)
  else if (48 <=? n) && (n <=? 57) then Some (n + 4)
  else if n =? 43 then Some 62
  else if n =? 47 then Some 63
  else None.

(** Base64 text to the bytes it stands for: groups of four characters, the
    last group padded with [=]. *)
Fixpoint b64decode (s : string) : option string :=
  match s with
  | EmptyString => Some EmptyString
  | String a (String b (String c (String d rest))) =>
      va ← b64_value a; vb ← b64_value b;
      let b0 := chr (va * 4 + vb / 16) in
      if Ascii.eqb c "=" then
        if Ascii.eqb d "=" && String.eqb rest "" then Some (String b0 "") else None
      else
        vc ← b64_value c;
        let b1 := chr ((vb mod 16) * 16 + vc / 4) in
        if Ascii.eqb d "=" then
          if String.eqb rest "" then Some (String b0 (String b1 "")) else None
        else
          vd ← b64_value d;
          let b2 := chr ((vc mod 4) * 64 + vd) in
          r ← b64decode rest; Some (String b0 (String b1 (String b2 r)))
  | _ => None
  end.

(** The decoder the specification's words describe for the
    [X-PAYMENT-RESPONSE] header: a base64 decode, then a JSON decode, and
    the raw string when decoding fails.  It is here to be compared with
    [decode_x_payment_response]. *)
Definition spec_base64_json_decode (w : World) (header_value : string) : value :=
  match b64decode header_value ≫= json_loads w with
  | Some v => v
  | None => VDict {[ "transaction" := VStr header_value ]}
  end.

(** The characters a JSON text can begin with, as [json.loads] reads it:
    white space, an object, an array, a string, a number, and the first
    letters of [true], [false], [null], [NaN] and [Infinity]. *)
Definition begins_json (c : ascii) : bool :=
  is_ws c || Ascii.eqb c "{" || Ascii.eqb c "[" || Ascii.eqb c dquote ||
  Ascii.eqb c "-" || is_digit c ||
  Ascii.eqb c "t" || Ascii.eqb c "f" || Ascii.eqb c "n" ||
  Ascii.eqb c "N" || Ascii.eqb c "I".

(** A [json.loads] that follows the JSON grammar on the first character: it
    raises on a text that begins with any other character. *)
Definition json_grammar (w : World) : Prop :=
  forall c r, begins_json c = false -> json_loads w (String c r) = None.

(** The value reported for a header kept as it came. *)
Definition raw_reference (header_value : string) : value :=
  VDict {[ "transaction" := VStr header_value ]}.

(** * Observations and specifications *)

Definition probe_request (s : agent) (timeout : Z) : request :=
  Request GET (rstrip_slash (facilitator_url s) +:+ "/list") ∅ None (Some timeout).

Definition probe_info (o : res response) : dict :=
  match o with
  | Ok r => {[ "status_code" := VInt (resp_status r); "payload" := json_or_text r; "headers" := headers_value r ]}
  | Raise e => error_result e
  end.

Definition log (e : event) (s : agent) : agent := set_trace (trace s ++ [e]) s.

Definition wp {S A} (m : M S A) (Q : res A -> S -> Prop) (s : S) : Prop :=
  Q (m s).1 (m s).2.

Definition paid_request (s : agent) (path : string) (amount : pyfloat) (currency : string)
    (metadata : value) (timeout : Z) : request :=
  Request POST (facilitator_url s +:+ "/" +:+ lstrip_slash path) json_headers
          (Some (VDict (request_body s amount currency metadata))) (Some timeout).

Definition same_config (s s' : agent) : Prop :=
  facilitator_url s' = facilitator_url s /\
  wallet_private_key s' = wallet_private_key s /\
  network s' = network s /\
  wallet_address s' = wallet_address s /\
  account s' = account s.

Definition has_status (d : dict) : Prop := exists z, d !! "status_code" = Some (VInt z).

Record paid_post (w : World) (s : agent) (req : request) (d : dict) (s' : agent) : Prop := {
  pp_config : same_config s s';
  pp_trace : trace s' = trace s ++ [EvHttp req] \/
             trace s' = trace s ++ [EvHttp req; EvHttp (probe_request s 5)];
  pp_diag : d !! "diagnostics" = None;
  pp_outcome :
    match transport w (trace s) req with
    | Raise e => d = error_result e
    | Ok r => d !! "status_code" = Some (VInt (resp_status r)) /\
              d !! "payload" = Some (json_or_text r) /\
              d !! "headers" = Some (headers_value r) /\
              d !! "error" = None
    end
}.

Definition sign_outcome (w : World) (s : agent) (data : dict) : option string * list event :=
  match Account w with
  | None => (None, [])
  | Some acc =>
      let priv := with_0x (wallet_private_key s) in
      (match sign_typed acc data priv with Ok sig => Some sig | Raise _ => None end,
       [EvSign data priv])
  end.

Definition signed_request (s : agent) (structured : dict) (signature : option string) : request :=
  Request POST (rstrip_slash (facilitator_url s) +:+ "/verify") json_headers
          (Some (VDict (signed_body s structured signature))) (Some 30).

Record signed_post (w : World) (s : agent) (structured : dict) (d : dict) (s' : agent) : Prop := {
  sp_config : same_config s s';
  sp_info : _facilitator_info s' = _facilitator_info s;
  sp_trace : trace s' = trace s ++ (sign_outcome w s structured).2 ++
               [EvHttp (signed_request s structured (sign_outcome w s structured).1)];
  sp_diag : d !! "diagnostics" = None;
  sp_body : d !! "request_body" =
            Some (VDict (signed_body s structured (sign_outcome w s structured).1));
  sp_outcome :
    match transport w (trace s ++ (sign_outcome w s structured).2)
                    (signed_request s structured (sign_outcome w s structured).1) with
    | Raise e => d !! "status_code" = Some (VInt 0) /\ d !! "error" = Some (VStr (exn_str e))
    | Ok r => d !! "status_code" = Some (VInt (resp_status r)) /\
              d !! "payload" = Some (json_or_text r) /\
              d !! "headers" = Some (headers_value r)
    end
}.

Definition plain_event (s : agent) (paths : list string) (e : event) : Prop :=
  (exists t, e = EvHttp (probe_request s t)) \/
  (exists p a c m t, p ∈ paths /\ e = EvHttp (paid_request s p a c m t)).

Definition signing_event (s : agent) (e : event) : Prop :=
  (exists d k, e = EvSign d k) \/ (exists d sig, e = EvHttp (signed_request s d sig)).

Definition extends (φ : event -> Prop) (s s' : agent) : Prop :=
  same_config s s' /\ exists ev, trace s' = trace s ++ ev /\ Forall φ ev.

Definition create_paths : list string := ["create_payment"; "verify"].

Definition verify_event (s : agent) (e : event) : Prop :=
  plain_event s ["verify"] e \/ signing_event s e.


Fixpoint ends_with (suffix s : string) : bool :=
  String.eqb suffix s ||
  match s with
  | String _ r => ends_with suffix r
  | EmptyString => false
  end.

Definition posts_to (p : string) (e : event) : bool :=
  match e with
  | EvHttp (Request POST u _ _ _) => ends_with p u
  | _ => false
  end.

Definition is_signed_verify (e : event) : bool :=
  match e with
  | EvHttp (Request POST u _ (Some (VDict b)) _) =>
      ends_with "/verify" u && bool_decide (is_Some (b !! "eip712"))
  | _ => false
  end.


Fixpoint count (f : event -> bool) (l : list event) : nat :=
  match l with
  | [] => 0
  | e :: r => ((if f e then 1 else 0) + count f r)%nat
  end.

Definition outcome (r : res dict) : dict :=
  match r with Ok d => d | Raise e => error_result e end.

(** The three stages of a run, with what each one leaves behind. *)
Record flow_stages (w : World) (a : pyfloat) (cur : string) (m : option string) (t : Z)
    (s : agent) (c v st : dict) (s1 s2 s3 : agent) : Prop := {
  fs_create : create_payment_session w a cur m s = ((create_payment_session w a cur m s).1, s1) /\
              c = outcome (create_payment_session w a cur m s).1;
  fs_create_stage : create_stage w a cur m s = (Ok (<["create" := VDict c]> ∅), s1);
  fs_verify : let r1 : dict := <["create" := VDict c]> ∅ in
              s2 = (verify_stage w r1 a cur m t s1).2 /\
              v = outcome (verify_stage w r1 a cur m t s1).1;
  fs_settle : let r2 : dict := <["verify" := VDict v]> (<["create" := VDict c]> ∅) in
              s3 = (settle_stage w r2 a cur m t s2).2 /\
              st = outcome (settle_stage w r2 a cur m t s2).1;
  fs_flow : complete_payment_flow w a cur m t s =
            (Ok (<["settle" := VDict st]> (<["verify" := VDict v]> (<["create" := VDict c]> ∅))), s3);
  fs_status : has_status c /\ has_status v /\ has_status st;
  fs_ext1 : extends (plain_event s create_paths) s s1;
  fs_ext2 : extends (verify_event s) s1 s2;
  fs_ext3 : extends (plain_event s ["settle"]) s2 s3
}.

Definition probe_unusable (o : res response) : Prop :=
  match o with
  | Raise _ => True
  | Ok r => resp_status r = 0 \/ 500 <= resp_status r
  end.

Inductive call :=
| CallDiscover (timeout : Z)
| CallPaid (path : string) (amount : pyfloat) (currency : string) (metadata : value) (timeout : Z)
| CallCreate (amount : pyfloat) (currency : string) (memo : option string)
| CallVerifySigned (amount : pyfloat) (currency : string) (memo : option string)
| CallFlow (amount : pyfloat) (currency : string) (memo : option string) (timeout : Z)
| CallInitWallet.

Definition run_call (w : World) (c : call) (s : agent) : agent :=
  match c with
  | CallDiscover t => (discover_facilitator w t s).2
  | CallPaid p a cur m t => (paid_api_call w p a cur m t s).2
  | CallCreate a cur m => (create_payment_session w a cur m s).2
  | CallVerifySigned a cur m => (verify_with_signature w a cur m s).2
  | CallFlow a cur m t => (complete_payment_flow w a cur m t s).2
  | CallInitWallet => (init_wallet w s).2
  end.

Definition session (w : World) (cs : list call) (s : agent) : agent :=
  fold_left (fun s c => run_call w c s) cs s.

Definition addressed_to (base : string) (e : event) : Prop :=
  match e with
  | EvHttp r => startswith base (req_url r) = true
  | EvSign _ _ => True
  end.

Definition primary_url (w : World) (url : string) : string :=
  rstrip_slash (getenv_or w "FACILITATOR_URL" url).

Definition list_request (base : string) (timeout : Z) : request :=
  Request GET (rstrip_slash base +:+ "/list") ∅ None (Some timeout).

Definition keeps_url (s s' : agent) : Prop :=
  facilitator_url s' = facilitator_url s /\
  exists ev, trace s' = trace s ++ ev /\
             Forall (addressed_to (rstrip_slash (facilitator_url s))) ev.

Definition reports (o : res response) (d : dict) : Prop :=
  (d !! "status_code" = Some (VInt 0) <-> exists e, o = Raise e) /\
  match o with
  | Ok r => d !! "status_code" = Some (VInt (resp_status r))
  | Raise e => d !! "status_code" = Some (VInt 0) /\ d !! "error" = Some (VStr (exn_str e))
  end.

Definition signing_fails (w : World) (s : agent) (data : dict) : Prop :=
  match Account w with
  | None => True
  | Some acc => exists e, sign_typed acc data (with_0x (wallet_private_key s)) = Raise e
  end.

Definition eip712_domain : dict :=
  {[ "name" := VStr "x402 Payment";
     "version" := VStr "1";
     "chainId" := VInt 1;
     "verifyingContract" := VStr zero_address ]}.

(** A facilitator described by the answers of its endpoints: the first
    entry whose path ends the URL answers; no entry, no connection. *)
Fixpoint route (routes : list (string * res response)) (url : string) : res response :=
  match routes with
  | [] => Raise (Exn "ConnectError" "connection refused")
  | (p, r) :: rest => if ends_with p url then r else route rest url
  end.

(** A response with the given status and body; [resp.json()] reads the body. *)
Definition reply (st : Z) (text : string) : res response :=
  Ok (Response st (read_json text) text ∅).

Definition facilitator (routes : list (string * res response))
    (signed : option (res response)) (acc : option eth_account) : World :=
  {| getenv := fun _ => None;
     transport := fun _ req =>
       match signed with
       | Some r => if is_signed_verify (EvHttp req) then r else route routes (req_url req)
       | None => route routes (req_url req)
       end;
     Account := acc;
     json_loads := read_json |}.

Definition signer : eth_account := EthAccount (fun _ => Ok "0xabc") (fun _ _ => Ok "0xsig").

Definition broken_signer : eth_account :=
  EthAccount (fun _ => Ok "0xabc") (fun _ _ => Raise (Exn "ValueError" "bad key")).



(** The agent a program gets from [X402PaymentAgent()] in a world. *)
Definition started (w : World) : agent :=
  (X402PaymentAgent w default_facilitator_url None None []).2.

Definition stage (k : string) (result : dict) : dict :=
  match result !! k with Some (VDict d) => d | _ => ∅ end.

Definition status_of (d : dict) : Z :=
  match d !! "status_code" with Some (VInt z) => z | _ => 0 end.

Definition cent : pyfloat := PyFloat "0.01".

(** create 200, verify 400, settle 200, a signer at hand *)
Definition rejecting_verify : World :=
  facilitator [("/list", reply 200 "{}"); ("/create_payment", reply 200 "{}");
               ("/verify", reply 400 "{}"); ("/settle", reply 200 "{}")]
              None (Some signer).

(** create 200, verify 500 *)
Definition failing_verify : World :=
  facilitator [("/list", reply 200 "{}"); ("/create_payment", reply 200 "{}");
               ("/verify", reply 500 "oops"); ("/settle", reply 200 "{}")]
              None None.

(** create 400, plain verify 400, signed verify 200 *)
Definition wants_signature : World :=
  facilitator [("/list", reply 200 "{}"); ("/create_payment", reply 400 "{}");
               ("/verify", reply 400 "{}"); ("/settle", reply 200 "{}")]
              (Some (reply 200 "{}")) (Some signer).

(** create 404, verify 200 with a JSON array as body *)
Definition array_verify : World :=
  facilitator [("/list", reply 200 "{}"); ("/create_payment", reply 404 "{}");
               ("/verify", reply 200 "[]"); ("/settle", reply 200 "{}")]
              None None.

(** nothing answers *)
Definition offline : World := facilitator [] None None.

(** A world for the header decoder: nothing but [json.loads], the reader. *)
Definition decoding : World := facilitator [] None None.

(** The base64 text of the JSON object [{"tx": 1}] (eight characters). *)
Definition encoded_object : string := "eyJ0eCI6MX0=".

(** create 404, verify 400 whatever is sent, a signer that raises *)
Definition broken_signing : World :=
  facilitator [("/list", reply 200 "{}"); ("/create_payment", reply 404 "{}");
               ("/verify", reply 400 "{}"); ("/settle", reply 200 "{}")]
              None (Some broken_signer).

Definition flow (w : World) : res dict * agent :=
  complete_payment_flow w cent "USD" None 30 (started w).

(** The events of that run. *)
Definition issued (w : World) : list event :=
  drop (length (trace (started w))) (trace (flow w).2).

(** The two calls [create_payment_session] makes at [array_verify], the
    agent they leave, and the exception of [[].get]. *)
Definition array_create : request :=
  paid_request (started array_verify) "create_payment" cent "USD" VNone 30.

Definition array_verify_call : request :=
  paid_request (started array_verify) "verify" cent "USD" VNone 30.

Definition array_after : agent :=
  set_trace (trace (started array_verify) ++ [EvHttp array_create; EvHttp array_verify_call])
            (started array_verify).

Definition no_get : exn := Exn "AttributeError" "'list' object has no attribute 'get'".

Definition created (w : World) : res dict * agent :=
  create_stage w cent "USD" None (started w).

Definition plain_verify (w : World) : res dict * agent :=
  paid_api_call w "verify" cent "USD" (memo_metadata None) 30 (created w).2.








(** * The rest of the tool, the client and the route guard *)

(** ** The tool: [x402_payment_full_flow] *)

(** The JSON body of the three calls.  Unlike [x402_payment_tool], the
    network is put in only when the argument is given, and the key is looked
    up in [X402_PRIVATE_KEY] only. *)
Definition full_flow_payload (w : World) (amount : pyfloat) (currency : string)
    (memo private_key network0 : option string) : dict :=
  let payload : dict := {[ "amount" := VFloat amount; "currency" := VStr currency ]} in
  let payload := if truthy_opt memo
                 then <["metadata" := VDict {[ "memo" := of_opt memo ]}]> payload
                 else payload in
  let payload := if truthy_opt network0
                 then <["network" := of_opt (or_opt network0 (getenv w "X402_NETWORK"))]> payload
                 else payload in
  let from_address :=
    _derive_address_from_private_key w (or_opt private_key (getenv w "X402_PRIVATE_KEY")) in
  if truthy_opt from_address then <["from_address" := of_opt from_address]> payload
  else payload.

(** [client.post(url, json=payload, headers=headers)] *)
Definition tool_post (w : World) (url : string) (payload : dict) : M (list event) response :=
  client_request w (Request POST url json_headers (Some (VDict payload)) None).

(** The first [try] block: the create call. *)
Definition full_create (w : World) (base : string) (payload : dict) : M (list event) dict :=
  try_ (r <- tool_post w (base +:+ "/create_payment") payload ;;
        ret (tool_result r))
       (fun e => ret (tool_error e payload)).

(** The second [try] block, given the [results] so far. *)
Definition full_verify (w : World) (base : string) (payload results : dict)
    : M (list event) dict :=
  try_
    (create_status_v <- lift (py_get (dict_get results "create" (VDict ∅))
                                     "status_code" (VInt 0)) ;;
     if eq_int create_status_v 404 then
       r2 <- tool_post w (base +:+ "/verify") payload ;;
       ret (<["verify" := VDict (tool_result r2)]> results)
     else
       create_status <- lift (as_int create_status_v) ;;
       if in_2xx create_status then
         r2 <- tool_post w (base +:+ "/verify") payload ;;
         ret (<["verify" := VDict (tool_result r2)]> results)
       else ret (<["verify" := VDict skip_verify]> results))
    (fun e => ret (<["verify" := VDict (error_result e)]> results)).

(** The third [try] block, given the [results] so far. *)
Definition full_settle (w : World) (base : string) (payload results : dict)
    : M (list event) dict :=
  try_
    (vstatus_v <- lift (py_get (dict_get results "verify" (VDict ∅))
                               "status_code" (VInt 0)) ;;
     vstatus <- lift (as_int vstatus_v) ;;
     if in_2xx vstatus then
       settle <- try_ (r3 <- tool_post w (base +:+ "/settle") payload ;;
                       ret (tool_result r3))
                      (fun e => ret (tool_error e payload)) ;;
       ret (<["settle" := VDict settle]> results)
     else ret (<["settle" := VDict skip_settle]> results))
    (fun e => ret (<["settle" := VDict (error_result e)]> results)).

Definition x402_payment_full_flow (w : World) (amount : pyfloat) (currency : string)
    (memo facilitator_url0 private_key network0 : option string) : M (list event) dict :=
  let url0 := or_str (or_opt (or_opt facilitator_url0 (getenv w "FACILITATOR_URL"))
                             (getenv w "PAYAI_FACILITATOR_URL"))
                     default_facilitator_url in
  let payload := full_flow_payload w amount currency memo private_key network0 in
  let base := rstrip_slash url0 in
  create <- full_create w base payload ;;
  results <- full_verify w base payload (<["create" := VDict create]> ∅) ;;
  results <- full_settle w base payload results ;;
  ret results.

(** ** The client: [x402Client.default_payment_requirements_selector] *)

(** [v[0]] *)
Definition py_first (v : value) : res value :=
  match v with
  | VList (x :: _) => Ok x
  | VList [] => Raise (Exn "IndexError" "list index out of range")
  | VStr (String c _) => Ok (VStr (String c ""))
  | VStr EmptyString => Raise (Exn "IndexError" "string index out of range")
  | VDict _ => Raise (Exn "KeyError" "0")
  | _ => Raise (Exn "TypeError" ("'" +:+ type_name v +:+ "' object is not subscriptable"))
  end.

(** [isinstance(a, dict) and a.get("network") == network_filter] *)
Definition network_is (network_filter : string) (a : value) : bool :=
  match a with
  | VDict d => match d !! "network" with
               | Some (VStr n) => String.eqb n network_filter
               | _ => false
               end
  | _ => false
  end.

(** The [for] loop over a list: the first element that passes the test. *)
Fixpoint first_match (network_filter : string) (l : list value) : option value :=
  match l with
  | [] => None
  | a :: rest => if network_is network_filter a then Some a
                 else first_match network_filter rest
  end.

Definition default_payment_requirements_selector (accepts : value)
    (network_filter scheme_filter : option string) (max_value : option pyfloat) : res value :=
  if negb (truthy accepts) then Ok VNone
  else match network_filter with
       | None => py_first accepts
       | Some nf =>
           match accepts with
           | VList l =>
               match first_match nf l with
               | Some a => Ok a
               | None => py_first accepts
               end
           (* iterating a string gives its characters, a dict its keys: no dict *)
           | VStr _ | VDict _ => py_first accepts
           | _ => Raise (Exn "TypeError" ("'" +:+ type_name accepts +:+ "' object is not iterable"))
           end
       end.

(** The request [client.post(url, json=payload, headers=headers)] sends. *)
Definition tool_request (url : string) (payload : dict) : request :=
  Request POST url json_headers (Some (VDict payload)) None.

(** The base URL [x402_payment_full_flow] posts to. *)
Definition full_flow_base (w : World) (facilitator_url0 : option string) : string :=
  rstrip_slash (or_str (or_opt (or_opt facilitator_url0 (getenv w "FACILITATOR_URL"))
                               (getenv w "PAYAI_FACILITATOR_URL"))
                       default_facilitator_url).

(** The status a call's outcome is reported with. *)
Definition reported_status (o : res response) : Z :=
  match o with Ok r => resp_status r | Raise _ => 0 end.

(** The result [paid_api_call] builds from a response, before diagnostics. *)
Definition paid_result (r : response) : dict :=
  {[ "status_code" := VInt (resp_status r);
     "payload" := json_or_text r;
     "headers" := headers_value r ]}.

(** The names a list of EIP-712 field declarations declares. *)
Definition field_names (v : value) : list string :=
  match v with
  | VList l =>
      omap (fun f => match f with
                     | VDict d => match d !! "name" with Some (VStr n) => Some n | _ => None end
                     | _ => None
                     end) l
  | _ => []
  end.





(** The address the constructor derives from a key: [init_wallet] run under
    its [try], when there is a key. *)
Definition derived_address (w : World) (key : option string) : option string :=
  if truthy_opt key then
    match Account w with
    | Some acc => match from_key acc (with_0x key) with
                  | Ok addr => Some addr
                  | Raise _ => None
                  end
    | None => None
    end
  else None.

(** The agent as the constructor has it before it probes the facilitator. *)
Definition configured (w : World) (url : string) (key net : option string)
    (t0 : list event) : agent :=
  let k := or_opt (or_opt key (getenv w "X402_PRIVATE_KEY"))
                  (getenv w "PAYAI_WALLET_PRIVATE_KEY") in
  Agent (primary_url w url) k (or_opt net (getenv w "X402_NETWORK"))
        (derived_address w k) (derived_address w k) ∅ t0.

(** The constructor's test on the outcome of its probe. *)
Definition probe_bad (o : res response) : bool :=
  match o with
  | Ok r => (resp_status r =? 0) || (500 <=? resp_status r)
  | Raise _ => true
  end.

(** The discovery cache holds the outcome of a probe. *)
Definition info_known (s : agent) : Prop := has_status (_facilitator_info s).

(** An agent out of the constructor, after a sequence of calls. *)
Definition built (w : World) (url : string) (key net : option string) (t0 : list event)
    (cs : list call) : agent :=
  session w cs (X402PaymentAgent w url key net t0).2.

(** ** The route guard: [_match] of [x402/fastapi/middleware.py] *)

(** [s[:-1]] *)
Fixpoint drop_last (s : string) : string :=
  match s with
  | EmptyString => EmptyString
  | String c r =>
      match r with
      | EmptyString => EmptyString
      | String _ _ => String c (drop_last r)
      end
  end.

(** [_match(request_path, pattern)], with [ends_with] for [str.endswith]. *)
Definition _match (request_path pattern : string) : bool :=
  if ends_with "/*" pattern then startswith (drop_last pattern) request_path
  else String.eqb request_path pattern.

(** everything answers 200 *)
Definition accepting : World :=
  facilitator [("/list", reply 200 "{}"); ("/create_payment", reply 200 "{}");
               ("/verify", reply 200 "{}"); ("/settle", reply 200 "{}")]
              None None.

(** create 400, verify 200, settle 200 *)
Definition skipping_create : World :=
  facilitator [("/list", reply 200 "{}"); ("/create_payment", reply 400 "{}");
               ("/verify", reply 200 "{}"); ("/settle", reply 200 "{}")]
              None None.

(** [X402_NETWORK=base] in the environment, nothing answers *)
Definition on_base : World :=
  {| getenv := fun k => if String.eqb k "X402_NETWORK" then Some "base" else None;
     transport := fun _ _ => Raise (Exn "ConnectError" "connection refused");
     Account := None;
     json_loads := read_json |}.

(** [x402_payment_full_flow(0.01)] in a world, from an empty record. *)
Definition full (w : World) : res dict * list event :=
  x402_payment_full_flow w cent "USD" None None None None [].

(** The create call of [create_payment_session] on a fresh agent. *)
Definition create_call (w : World) : res dict * agent :=
  paid_api_call w "create_payment" cent "USD" (memo_metadata None) 30 (started w).

(** An agent holding a key without the [0x] prefix, before [init_wallet]. *)
Definition bare_key_agent : agent :=
  Agent default_facilitator_url (Some "abc") None None None ∅ [].

(** * Lemmas and theorems *)

Section Logic.

Context {S : Type}.

Lemma wp_ret {A} (a : A) Q (s : S) : Q (Ok a) s -> wp (ret a) Q s.
Proof. done. Qed.

Lemma wp_raise {A} e (Q : res A -> S -> Prop) s : Q (Raise e) s -> wp (raise e) Q s.
Proof. done. Qed.

Lemma wp_lift {A} (r : res A) Q (s : S) : Q r s -> wp (lift r) Q s.
Proof. done. Qed.

Lemma wp_get Q (s : S) : Q (Ok s) s -> wp get Q s.
Proof. done. Qed.

Lemma wp_modify f Q (s : S) : Q (Ok tt) (f s) -> wp (modify f) Q s.
Proof. done. Qed.

Lemma wp_bind {A B} (m : M S A) (k : A -> M S B) Q s :
  wp m (fun r s' => match r with Ok a => wp (k a) Q s' | Raise e => Q (Raise e) s' end) s ->
  wp (bind m k) Q s.
Proof. unfold wp, bind. destruct (m s) as [[a|e] s']; done. Qed.

Lemma wp_try {A} (m : M S A) h Q s :
  wp m (fun r s' => match r with Ok a => Q (Ok a) s' | Raise e => wp (h e) Q s' end) s ->
  wp (try_ m h) Q s.
Proof. unfold wp, try_. destruct (m s) as [[a|e] s']; done. Qed.

Lemma wp_mono {A} (m : M S A) (Q Q' : res A -> S -> Prop) s :
  wp m Q s -> (forall r s', Q r s' -> Q' r s') -> wp m Q' s.
Proof. unfold wp. auto. Qed.

Lemma wp_elim {A} (m : M S A) Q s r s' : wp m Q s -> m s = (r, s') -> Q r s'.
Proof. unfold wp. intros H E. by rewrite E in H. Qed.

Lemma wp_intro {A} (m : M S A) (Q : res A -> S -> Prop) s :
  (forall r s', m s = (r, s') -> Q r s') -> wp m Q s.
Proof. unfold wp. intros H. apply H. by destruct (m s). Qed.

End Logic.

Lemma wp_http w req (Q : res response -> agent -> Prop) s :
  Q (transport w (trace s) req) (log (EvHttp req) s) ->
  wp (on_trace (client_request w req)) Q s.
Proof. done. Qed.

Lemma discover_facilitator_run w timeout s :
  discover_facilitator w timeout s =
    let info := probe_info (transport w (trace s) (probe_request s timeout)) in
    (Ok info, set_facilitator_info info (log (EvHttp (probe_request s timeout)) s)).
Proof.
  unfold discover_facilitator, bind, try_, get, http_get, on_trace, client_request, modify, ret.
  fold (probe_request s timeout).
  destruct (transport w (trace s) (probe_request s timeout)) as [r|e]; reflexivity.
Qed.

Lemma same_config_refl s : same_config s s.
Proof. by repeat split. Qed.

Lemma paid_api_call_spec w path amount currency metadata timeout s :
  exists d s', paid_api_call w path amount currency metadata timeout s = (Ok d, s') /\
    paid_post w s (paid_request s path amount currency metadata timeout) d s'.
Proof.
  unfold paid_api_call, bind at 1, get, try_ at 1, bind at 1, http_post, on_trace, client_request.
  fold (paid_request s path amount currency metadata timeout).
  set (req := paid_request s path amount currency metadata timeout).
  destruct (transport w (trace s) req) as [r|e] eqn:Ho.
  - destruct (in_2xx (resp_status r)) eqn:H2; cbn [negb].
    + eexists _, _. split; [reflexivity|].
      split; [by repeat split | by left | by simplify_map_eq | rewrite Ho; by simplify_map_eq].
    + unfold bind at 1, get. cbn [_facilitator_info set_trace].
      destruct (truthy (VDict (_facilitator_info s))) eqn:Ht; cbn [negb].
      * eexists _, _. split; [reflexivity|].
        split; [by repeat split | by left | by simplify_map_eq | rewrite Ho; by simplify_map_eq].
      * unfold try_, bind. rewrite discover_facilitator_run. cbn zeta. unfold get, ret.
        eexists _, _. split; [reflexivity|].
        split; [by repeat split | right | by simplify_map_eq | rewrite Ho; by simplify_map_eq].
        cbn. by rewrite <- app_assoc.
  - eexists _, _. split; [reflexivity|].
    split; [by repeat split | by left | by simplify_map_eq | by rewrite Ho].
Qed.

Lemma set_trace_id s : set_trace (trace s) s = s.
Proof. by destruct s. Qed.

Lemma _sign_eip712_run w data s :
  _sign_eip712 w data s =
    (Ok (sign_outcome w s data).1, set_trace (trace s ++ (sign_outcome w s data).2) s).
Proof.
  unfold _sign_eip712, sign_outcome.
  destruct (Account w) as [acc|]; cbn [fst snd].
  - unfold try_, bind, get, sign_call, on_trace, ret.
    by destruct (sign_typed acc data _).
  - by rewrite app_nil_r, set_trace_id.
Qed.

Lemma verify_with_signature_spec w amount currency memo s :
  exists d s', verify_with_signature w amount currency memo s = (Ok d, s') /\
    signed_post w s (_build_eip712_intent w s amount currency memo) d s'.
Proof.
  unfold verify_with_signature, bind at 1, get, bind at 1.
  rewrite _sign_eip712_run.
  set (structured := _build_eip712_intent w s amount currency memo).
  set (so := sign_outcome w s structured).
  unfold try_, bind, http_post, on_trace, client_request, ret.
  cbn [trace set_trace facilitator_url wallet_address network].
  fold (signed_request s structured so.1).
  match goal with |- context [transport w ?t ?r] => destruct (transport w t r) as [r0|e] eqn:Ho end.
  - eexists _, _. split; [reflexivity|].
    split; [by repeat split | done | by rewrite <- app_assoc | by simplify_map_eq
           | by simplify_map_eq | fold so; rewrite Ho; by simplify_map_eq].
  - eexists _, _. split; [reflexivity|].
    split; [by repeat split | done | by rewrite <- app_assoc | by simplify_map_eq
           | by simplify_map_eq | fold so; rewrite Ho; by simplify_map_eq].
Qed.

Lemma same_config_trans s1 s2 s3 : same_config s1 s2 -> same_config s2 s3 -> same_config s1 s3.
Proof. unfold same_config. intuition congruence. Qed.

Lemma same_config_sym s1 s2 : same_config s1 s2 -> same_config s2 s1.
Proof. unfold same_config. intuition congruence. Qed.

Lemma probe_request_config s s' t : same_config s s' -> probe_request s' t = probe_request s t.
Proof. intros (Hu & _). unfold probe_request. by rewrite Hu. Qed.

Lemma paid_request_config s s' p a c m t :
  same_config s s' -> paid_request s' p a c m t = paid_request s p a c m t.
Proof.
  intros (Hu & _ & Hn & Hw & _). unfold paid_request, request_body. by rewrite Hu, Hn, Hw.
Qed.

Lemma signed_request_config s s' d sig :
  same_config s s' -> signed_request s' d sig = signed_request s d sig.
Proof.
  intros (Hu & _ & Hn & Hw & _). unfold signed_request, signed_body. by rewrite Hu, Hn, Hw.
Qed.

Lemma plain_event_config s s' paths e :
  same_config s s' -> plain_event s' paths e -> plain_event s paths e.
Proof.
  intros Hc [[t ->]|(p & a & c & m & t & Hp & ->)].
  - left. exists t. by rewrite (probe_request_config s s').
  - right. exists p, a, c, m, t. by rewrite (paid_request_config s s').
Qed.

Lemma extends_refl φ s : extends φ s s.
Proof. split; [apply same_config_refl|]. exists []. by rewrite app_nil_r. Qed.

Lemma extends_trans φ s1 s2 s3 : extends φ s1 s2 -> extends φ s2 s3 -> extends φ s1 s3.
Proof.
  intros [Hc1 (ev1 & Ht1 & Hf1)] [Hc2 (ev2 & Ht2 & Hf2)].
  split; [by eapply same_config_trans|].
  exists (ev1 ++ ev2). split; [by rewrite Ht2, Ht1, app_assoc | by apply Forall_app].
Qed.

Lemma extends_weaken (φ ψ : event -> Prop) s s' :
  (forall e, φ e -> ψ e) -> extends φ s s' -> extends ψ s s'.
Proof.
  intros Hi [Hc (ev & Ht & Hf)]. split; [done|]. exists ev. split; [done|].
  eapply Forall_impl; eauto.
Qed.

Lemma paid_post_has_status w s req d s' : paid_post w s req d s' -> has_status d.
Proof.
  intros [_ _ _ Ho]. destruct (transport w (trace s) req).
  - destruct Ho as (H & _). by eexists.
  - subst d. by exists 0.
Qed.

Lemma paid_post_extends w s0 s p a c m t d s' paths :
  same_config s0 s -> p ∈ paths ->
  paid_post w s (paid_request s p a c m t) d s' ->
  extends (plain_event s0 paths) s s'.
Proof.
  intros Hc Hp [Hcfg Ht _ _]. split; [done|].
  assert (plain_event s0 paths (EvHttp (paid_request s p a c m t))) as H1.
  { right. exists p, a, c, m, t. by rewrite (paid_request_config s0 s). }
  assert (plain_event s0 paths (EvHttp (probe_request s 5))) as H2.
  { left. exists 5. by rewrite (probe_request_config s0 s). }
  destruct Ht as [Ht|Ht]; eexists; (split; [exact Ht|]);
    repeat (apply Forall_cons_2; [done|]); apply Forall_nil_2.
Qed.

Lemma discover_extends w s0 s t paths :
  same_config s0 s ->
  extends (plain_event s0 paths) s (discover_facilitator w t s).2.
Proof.
  intros Hc. rewrite discover_facilitator_run. cbn [snd]. split; [by repeat split|].
  eexists. split; [reflexivity|]. apply Forall_cons_2; [|apply Forall_nil_2]. left. exists t.
  by rewrite (probe_request_config s0 s).
Qed.

Lemma wp_paid_api_call w path a c m t (Q : res dict -> agent -> Prop) s :
  (forall d s', paid_post w s (paid_request s path a c m t) d s' -> Q (Ok d) s') ->
  wp (paid_api_call w path a c m t) Q s.
Proof.
  intros H. destruct (paid_api_call_spec w path a c m t s) as (d & s' & E & Hp).
  unfold wp. rewrite E. by apply H.
Qed.

Lemma wp_discover w t (Q : res dict -> agent -> Prop) s :
  Q (Ok (probe_info (transport w (trace s) (probe_request s t))))
    (set_facilitator_info (probe_info (transport w (trace s) (probe_request s t)))
       (log (EvHttp (probe_request s t)) s)) ->
  wp (discover_facilitator w t) Q s.
Proof. intros H. unfold wp. by rewrite discover_facilitator_run. Qed.

Lemma wp_verify_with_signature w a c m (Q : res dict -> agent -> Prop) s :
  (forall d s', signed_post w s (_build_eip712_intent w s a c m) d s' -> Q (Ok d) s') ->
  wp (verify_with_signature w a c m) Q s.
Proof.
  intros H. destruct (verify_with_signature_spec w a c m s) as (d & s' & E & Hp).
  unfold wp. rewrite E. by apply H.
Qed.

Lemma dict_get_lookup (d : dict) k v dflt : d !! k = Some v -> dict_get d k dflt = v.
Proof. unfold dict_get. by intros ->. Qed.

Lemma has_status_setdefault k v d : k ≠ "status_code" -> has_status d -> has_status (setdefault k v d).
Proof.
  intros Hk [z Hz]. exists z. unfold setdefault. destruct (d !! k); [done|].
  by rewrite lookup_insert_ne.
Qed.

Lemma has_status_set_nested k1 k2 v d d' :
  k1 ≠ "status_code" -> set_nested k1 k2 v d = Ok d' -> has_status d -> has_status d'.
Proof.
  intros Hk E [z Hz]. exists z. unfold set_nested in E.
  destruct (d !! k1) as [[]|]; try done. injection E as <-. by rewrite lookup_insert_ne.
Qed.

Lemma create_payment_session_spec w amount currency memo s :
  wp (create_payment_session w amount currency memo)
     (fun r s' => extends (plain_event s create_paths) s s' /\
                  forall d, r = Ok d -> has_status d) s.
Proof.
  unfold create_payment_session.
  apply wp_bind, wp_paid_api_call. intros create_res s1 H1.
  pose proof (paid_post_has_status _ _ _ _ _ H1) as [z1 Hz1].
  pose proof (paid_post_extends w s s "create_payment" _ _ _ _ _ _ create_paths
                (same_config_refl s) ltac:(set_solver) H1) as He1.
  rewrite (dict_get_lookup _ _ _ _ Hz1).
  destruct (eq_int (VInt z1) 404).
  - apply wp_bind, wp_paid_api_call. intros verify_res s2 H2.
    pose proof (paid_post_has_status _ _ _ _ _ H2) as [z2 Hz2].
    pose proof (paid_post_extends w s s1 "verify" _ _ _ _ _ _ create_paths
                  (proj1 He1) ltac:(set_solver) H2) as He2.
    pose proof (extends_trans _ _ _ _ He1 He2) as He.
    rewrite !(dict_get_lookup _ _ _ _ Hz2).
    apply wp_bind, wp_lift. cbn [as_int].
    destruct (in_2xx z2).
    + apply wp_bind, wp_lift. destruct (py_get _ _ _); [|by split].
      apply wp_bind, wp_lift. destruct (py_get _ _ _); [|by split].
      apply wp_ret. split; [done|]. intros d [= <-]. exists z2. by simplify_map_eq.
    + apply wp_ret. split; [done|]. intros d [= <-]. by exists z2.
  - destruct (eq_int (VInt z1) 400).
    + apply wp_bind, wp_paid_api_call. intros verify_res s2 H2.
      pose proof (paid_post_extends w s s1 "verify" _ _ _ _ _ _ create_paths
                    (proj1 He1) ltac:(set_solver) H2) as He2.
      pose proof (extends_trans _ _ _ _ He1 He2) as He.
      apply wp_bind, wp_lift.
      destruct (set_nested _ _ _ _) as [cr1|e] eqn:E1; [|by split].
      apply wp_bind, wp_discover.
      pose proof (discover_extends w s s2 5 create_paths (proj1 He)) as He3.
      rewrite discover_facilitator_run in He3. cbn [snd] in He3.
      pose proof (extends_trans _ _ _ _ He He3) as He'.
      apply wp_bind, wp_lift.
      destruct (set_nested _ _ _ cr1) as [cr2|e] eqn:E2; [|by split].
      apply wp_ret. split; [done|]. intros d [= <-].
      eapply has_status_set_nested; [|exact E2|]; [done|].
      eapply has_status_set_nested; [|exact E1|]; [done|].
      apply has_status_setdefault; [done|]. by exists z1.
    + apply wp_ret. split; [done|]. intros d [= <-]. by exists z1.
Qed.

Lemma signed_post_has_status w s i d s' : signed_post w s i d s' -> has_status d.
Proof.
  intros [_ _ _ _ _ Ho]. destruct (transport w _ _).
  - destruct Ho as (H & _). by eexists.
  - destruct Ho as (H & _). by exists 0.
Qed.

Lemma signed_post_extends w s0 s i d s' :
  same_config s0 s -> signed_post w s i d s' -> extends (signing_event s0) s s'.
Proof.
  intros Hc [Hcfg _ Ht _ _ _]. split; [done|]. eexists. split; [exact Ht|].
  apply Forall_app. split.
  - unfold sign_outcome. destruct (Account w); cbn [snd]; [|apply Forall_nil_2].
    apply Forall_cons_2; [|apply Forall_nil_2]. left. by eexists _, _.
  - apply Forall_cons_2; [|apply Forall_nil_2]. right.
    eexists _, _. by rewrite (signed_request_config s0 s).
Qed.

Lemma has_status_diagnostics d k v :
  has_status d ->
  has_status (best_effort [ (fun d => Ok (setdefault "diagnostics" (VDict ∅) d));
                            set_nested "diagnostics" k v ] d).
Proof.
  intros H. cbn [best_effort].
  destruct (set_nested _ _ _ _) eqn:E.
  - eapply has_status_set_nested; [|exact E|]; [done|]. by apply has_status_setdefault.
  - by apply has_status_setdefault.
Qed.

Lemma has_status_diagnostics2 d k v k' v' :
  has_status d ->
  has_status (best_effort [ (fun d => Ok (setdefault "diagnostics" (VDict ∅) d));
                            set_nested "diagnostics" k v;
                            set_nested "diagnostics" k' v' ] d).
Proof.
  intros H. cbn [best_effort].
  destruct (set_nested _ k _ _) eqn:E.
  - destruct (set_nested _ k' _ _) eqn:E'.
    + eapply has_status_set_nested; [|exact E'|]; [done|].
      eapply has_status_set_nested; [|exact E|]; [done|]. by apply has_status_setdefault.
    + eapply has_status_set_nested; [|exact E|]; [done|]. by apply has_status_setdefault.
  - by apply has_status_setdefault.
Qed.

Lemma has_status_skip_verify : has_status skip_verify.
Proof. by exists 0. Qed.

Lemma has_status_skip_settle : has_status skip_settle.
Proof. by exists 0. Qed.

Lemma has_status_error e : has_status (error_result e).
Proof. by exists 0. Qed.

Lemma verify_stage_spec w result amount currency memo timeout s :
  wp (verify_stage w result amount currency memo timeout)
     (fun r s' => extends (verify_event s) s s' /\ forall d, r = Ok d -> has_status d) s.
Proof.
  unfold verify_stage.
  apply wp_bind, wp_lift. destruct (py_get _ _ _) as [status_v|]; [|split; [apply extends_refl|done]].
  apply wp_bind, wp_lift. destruct (as_int status_v) as [status|]; [|split; [apply extends_refl|done]].
  destruct (in_2xx status).
  { apply wp_paid_api_call. intros d s1 H1. split.
    - eapply extends_weaken; [|eapply (paid_post_extends w s s "verify"); eauto using same_config_refl].
      + intros e He. by left.
      + set_solver.
    - intros d' [= <-]. eapply paid_post_has_status; eauto. }
  destruct ((status =? 400) || (status =? 404)); [|apply wp_ret; split; [apply extends_refl|]; intros d [= <-]; apply has_status_skip_verify].
  apply wp_bind, wp_paid_api_call. intros verify_res s1 H1.
  assert (extends (verify_event s) s s1) as He1.
  { eapply extends_weaken; [|eapply (paid_post_extends w s s "verify"); eauto using same_config_refl].
    + intros e He. by left.
    + set_solver. }
  pose proof (paid_post_has_status _ _ _ _ _ H1) as Hs1. destruct (Hs1) as [z1 Hz1].
  rewrite (dict_get_lookup _ _ _ _ Hz1).
  apply wp_bind, wp_lift. cbn [as_int].
  destruct (in_2xx z1); cbn [negb].
  - apply wp_ret. split; [done|]. intros d [= <-]. by apply has_status_diagnostics.
  - apply wp_bind, wp_verify_with_signature. intros sig_res s2 H2.
    assert (extends (verify_event s) s s2) as He2.
    { eapply extends_trans; [exact He1|].
      eapply extends_weaken; [|eapply (signed_post_extends w s s1); [exact (proj1 He1)|exact H2]].
      intros e He. by right. }
    pose proof (signed_post_has_status _ _ _ _ _ H2) as Hs2. destruct (Hs2) as [z2 Hz2].
    rewrite (dict_get_lookup _ _ _ _ Hz2).
    apply wp_bind, wp_lift. cbn [as_int].
    destruct (in_2xx z2).
    + apply wp_ret. split; [done|]. by intros d [= <-].
    + apply wp_ret. split; [done|]. intros d [= <-]. by apply has_status_diagnostics2.
Qed.

Lemma settle_stage_spec w result amount currency memo timeout s :
  wp (settle_stage w result amount currency memo timeout)
     (fun r s' => extends (plain_event s ["settle"]) s s' /\ forall d, r = Ok d -> has_status d) s.
Proof.
  unfold settle_stage.
  apply wp_bind, wp_lift. destruct (py_get _ _ _) as [status_v|]; [|split; [apply extends_refl|done]].
  apply wp_bind, wp_lift. destruct (as_int status_v) as [status|]; [|split; [apply extends_refl|done]].
  destruct (in_2xx status).
  { apply wp_paid_api_call. intros d s1 H1. split.
    - eapply (paid_post_extends w s s "settle"); eauto using same_config_refl. set_solver.
    - intros d' [= <-]. eapply paid_post_has_status; eauto. }
  destruct ((status =? 400) || (status =? 404)); [|apply wp_ret; split; [apply extends_refl|]; intros d [= <-]; apply has_status_skip_settle].
  apply wp_bind, wp_paid_api_call. intros settle_res s1 H1.
  apply wp_ret. split.
  - eapply (paid_post_extends w s s "settle"); eauto using same_config_refl. set_solver.
  - intros d [= <-]. apply has_status_diagnostics. eapply paid_post_has_status; eauto.
Qed.

Lemma count_app f l1 l2 : count f (l1 ++ l2) = (count f l1 + count f l2)%nat.
Proof. induction l1 as [|e l IH]; cbn; [done|]. rewrite IH. lia. Qed.

Lemma count_none f l : Forall (fun e => f e = false) l -> count f l = 0%nat.
Proof. induction 1 as [|e l He _ IH]; cbn; [done|]. by rewrite He, IH. Qed.

Lemma length_append (a b : string) :
  String.length (a +:+ b) = (String.length a + String.length b)%nat.
Proof. induction a as [|c a IH]; [done|]. simpl. by rewrite IH. Qed.

Lemma ends_with_app (p u q : string) :
  (String.length p <= String.length q)%nat -> ends_with p (u +:+ q) = ends_with p q.
Proof.
  intros Hl. induction u as [|c u IH]; [done|].
  simpl. rewrite IH.
  replace (String.eqb p (String c (u +:+ q))) with false; [done|].
  symmetry. apply String.eqb_neq. intros E.
  apply (f_equal String.length) in E. simpl in E. rewrite length_append in E. lia.
Qed.

Lemma startswith_app (a x : string) : startswith a (a +:+ x) = true.
Proof.
  induction a as [|c a IH]; [reflexivity|]. simpl. by rewrite Ascii.eqb_refl.
Qed.

Lemma startswith_rstrip_app (u x : string) : startswith (rstrip_slash u) (u +:+ x) = true.
Proof.
  induction u as [|c u IH]; [reflexivity|]. simpl.
  destruct (rstrip_slash u) as [|c' r'] eqn:E.
  - destruct (Ascii.eqb c slash); [reflexivity|]. simpl. by rewrite Ascii.eqb_refl.
  - simpl. simpl in IH. by rewrite Ascii.eqb_refl.
Qed.

Lemma flow_run w a cur m t s :
  let cr := create_payment_session w a cur m s in
  let r1 : dict := <["create" := VDict (outcome cr.1)]> ∅ in
  let vr := verify_stage w r1 a cur m t cr.2 in
  let r2 : dict := <["verify" := VDict (outcome vr.1)]> r1 in
  let sr := settle_stage w r2 a cur m t vr.2 in
  create_stage w a cur m s = (Ok r1, cr.2) /\
  complete_payment_flow w a cur m t s = (Ok (<["settle" := VDict (outcome sr.1)]> r2), sr.2).
Proof.
  unfold complete_payment_flow, create_stage, bind, try_, ret.
  destruct (create_payment_session w a cur m s) as [[c|e] s1]; cbn [fst snd outcome];
    (split; [done|]);
    match goal with |- context [verify_stage w ?r a cur m t ?x] =>
      destruct (verify_stage w r a cur m t x) as [[v|e'] s2] end; cbn [fst snd outcome];
    match goal with |- context [settle_stage w ?r a cur m t ?x] =>
      destruct (settle_stage w r a cur m t x) as [[st|e''] s3] end; done.
Qed.

Lemma verify_event_config s s' e : same_config s s' -> verify_event s' e -> verify_event s e.
Proof.
  intros Hc [H|[H|(d & sig & ->)]].
  - left. by eapply plain_event_config.
  - right. by left.
  - right. right. exists d, sig. by rewrite (signed_request_config s s').
Qed.

Lemma has_status_outcome (r : res dict) :
  (forall d, r = Ok d -> has_status d) -> has_status (outcome r).
Proof. destruct r; cbn; [auto|]. intros _. apply has_status_error. Qed.

Lemma flow_has_stages w a cur m t s :
  exists c v st s1 s2 s3, flow_stages w a cur m t s c v st s1 s2 s3.
Proof.
  pose proof (flow_run w a cur m t s) as Hrun. cbv zeta in Hrun. destruct Hrun as [Hcs Hrun].
  pose proof (create_payment_session_spec w a cur m s) as [He1 Hs1].
  set (cr := create_payment_session w a cur m s) in *.
  set (r1 := (<["create" := VDict (outcome cr.1)]> ∅ : dict)) in *.
  pose proof (verify_stage_spec w r1 a cur m t cr.2) as [He2 Hs2].
  set (vr := verify_stage w r1 a cur m t cr.2) in *.
  set (r2 := (<["verify" := VDict (outcome vr.1)]> r1 : dict)) in *.
  pose proof (settle_stage_spec w r2 a cur m t vr.2) as [He3 Hs3].
  set (sr := settle_stage w r2 a cur m t vr.2) in *.
  exists (outcome cr.1), (outcome vr.1), (outcome sr.1), cr.2, vr.2, sr.2.
  split; try done.
  - split; [apply surjective_pairing|done].
  - repeat split; by apply has_status_outcome.
  - eapply extends_weaken; [|exact He2]. intros e. apply verify_event_config, He1.
  - eapply extends_weaken; [|exact He3]. intros e. apply plain_event_config.
    eapply same_config_trans; [apply He1|apply He2].
Qed.

Lemma posts_to_paid s p a c m t q :
  (String.length q <= String.length ("/" +:+ lstrip_slash p))%nat ->
  posts_to q (EvHttp (paid_request s p a c m t)) = ends_with q ("/" +:+ lstrip_slash p).
Proof. intros Hl. unfold posts_to, paid_request. by apply ends_with_app. Qed.

Lemma plain_event_no_settle s e :
  plain_event s create_paths e -> posts_to "/settle" e = false.
Proof.
  intros [[t ->]|(p & a & c & m & t & Hp & ->)]; [done|].
  unfold create_paths in Hp. apply elem_of_cons in Hp as [->|Hp];
    [|apply list_elem_of_singleton in Hp as ->]; by rewrite posts_to_paid by (simpl; lia).
Qed.

Lemma signed_request_no_settle s d sig : posts_to "/settle" (EvHttp (signed_request s d sig)) = false.
Proof. unfold posts_to, signed_request. by rewrite ends_with_app by (simpl; lia). Qed.

Lemma verify_event_no_settle s e : verify_event s e -> posts_to "/settle" e = false.
Proof.
  intros [[[t ->]|(p & a & c & m & t & Hp & ->)]|[(d & k & ->)|(d & sig & ->)]]; try done.
  - apply list_elem_of_singleton in Hp as ->. by rewrite posts_to_paid by (simpl; lia).
  - apply signed_request_no_settle.
Qed.

Lemma settle_event_count s ev :
  Forall (plain_event s ["settle"]) ev ->
  count (posts_to "/settle") ev =
  count (fun e => match e with EvHttp (Request POST _ _ _ _) => true | _ => false end) ev.
Proof.
  induction 1 as [|e l He _ IH]; [done|]. cbn [count]. rewrite IH. f_equal.
  destruct He as [[t ->]|(p & a & c & m & t & Hp & ->)]; [done|].
  apply list_elem_of_singleton in Hp as ->. by rewrite posts_to_paid by (simpl; lia).
Qed.

Lemma py_get_status (v : dict) z :
  v !! "status_code" = Some (VInt z) -> py_get (VDict v) "status_code" (VInt 0) = Ok (VInt z).
Proof. intros H. cbn. by rewrite H. Qed.

Lemma settle_stage_skipped w (r v : dict) z a cur m t s :
  r !! "verify" = Some (VDict v) -> v !! "status_code" = Some (VInt z) ->
  in_2xx z = false -> z ≠ 400 -> z ≠ 404 ->
  settle_stage w r a cur m t s = (Ok skip_settle, s).
Proof.
  intros Hr Hv H2 H400 H404. unfold settle_stage, bind, lift.
  rewrite (dict_get_lookup _ _ _ _ Hr), (py_get_status _ _ Hv). cbn [as_int]. rewrite H2.
  apply Z.eqb_neq in H400, H404. by rewrite H400, H404.
Qed.

Lemma settle_stage_attempted w (r v : dict) z a cur m t s :
  r !! "verify" = Some (VDict v) -> v !! "status_code" = Some (VInt z) ->
  z = 400 \/ z = 404 ->
  exists d s',
    paid_post w s (paid_request s "settle" a cur (memo_metadata m) t) d s' /\
    settle_stage w r a cur m t s =
      (Ok (<["diagnostics" := VDict {[ "verify_response" := VDict v ]}]> d), s').
Proof.
  intros Hr Hv Hz. unfold settle_stage, bind, lift.
  rewrite (dict_get_lookup _ _ _ _ Hr), (py_get_status _ _ Hv). cbn [as_int].
  destruct (paid_api_call_spec w "settle" a cur (memo_metadata m) t s) as (d & s' & E & Hp).
  exists d, s'. split; [done|].
  assert (in_2xx z = false) as -> by (by destruct Hz as [-> | ->]).
  assert ((z =? 400) || (z =? 404) = true) as -> by (by destruct Hz as [-> | ->]).
  rewrite E. unfold ret. do 2 f_equal. cbn [best_effort].
  unfold setdefault. rewrite (pp_diag _ _ _ _ _ Hp). unfold set_nested.
  rewrite lookup_insert_eq. cbv beta iota.
  by rewrite insert_insert_eq, insert_empty, (dict_get_lookup _ _ _ _ Hr).
Qed.

(** C1: whatever the world, the agent and the arguments,
    [complete_payment_flow] returns (it raises nothing) a mapping whose keys
    ["create"], ["verify"] and ["settle"] each hold a result with an integer
    ["status_code"]; when [create_payment_session] raises, the create stage
    is [{status_code: 0, error: str(e)}]. *)
Theorem complete_payment_flow_total w amount currency memo timeout s :
  exists result s',
    complete_payment_flow w amount currency memo timeout s = (Ok result, s') /\
    (forall stage, stage ∈ ["create"; "verify"; "settle"] ->
       exists d z, result !! stage = Some (VDict d) /\ d !! "status_code" = Some (VInt z)) /\
    (forall e, (create_payment_session w amount currency memo s).1 = Raise e ->
       result !! "create" = Some (VDict (error_result e))).
Proof.
  destruct (flow_has_stages w amount currency memo timeout s)
    as (c & v & st & s1 & s2 & s3 & H).
  destruct H as [[_ Hc] _ _ _ Hflow ([zc Hzc] & [zv Hzv] & [zs Hzs]) _ _ _].
  eexists _, _. split; [exact Hflow|]. split.
  - intros stage Hin. repeat (apply elem_of_cons in Hin as [->|Hin]).
    + exists c, zc. by simplify_map_eq.
    + exists v, zv. by simplify_map_eq.
    + exists st, zs. by simplify_map_eq.
    + by apply elem_of_nil in Hin.
  - intros e He. rewrite He in Hc. cbn in Hc. subst c. by simplify_map_eq.
Qed.

(** C3: when the verify stage of a run ends with a status outside
    [200, 300) and other than 400 and 404, the settle stage is the sentinel
    [{status_code: 0, error: "verify failed; skipping settle"}] and the run
    issued no POST to [/settle]. *)
Theorem settle_skipped_after_failed_verify w amount currency memo timeout s result s' v z :
  complete_payment_flow w amount currency memo timeout s = (Ok result, s') ->
  result !! "verify" = Some (VDict v) ->
  v !! "status_code" = Some (VInt z) ->
  ~ (200 <= z < 300) -> z ≠ 400 -> z ≠ 404 ->
  result !! "settle" = Some (VDict skip_settle) /\
  exists ev, trace s' = trace s ++ ev /\ Forall (fun e => posts_to "/settle" e = false) ev.
Proof.
  intros Hrun Hv Hz H2 H400 H404.
  destruct (flow_has_stages w amount currency memo timeout s)
    as (c & v0 & st & s1 & s2 & s3 & H).
  destruct H as [_ _ _ [Hs3 Hst] Hflow _ He1 He2 _].
  rewrite Hflow in Hrun. injection Hrun as <- <-.
  rewrite lookup_insert_ne, lookup_insert_eq in Hv by done. injection Hv as ->.
  assert (in_2xx z = false) as Hn.
  { unfold in_2xx. apply andb_false_iff. rewrite Z.leb_gt, Z.ltb_ge. lia. }
  cbv zeta in Hs3, Hst.
  rewrite (settle_stage_skipped w _ v z) in Hs3, Hst by (done || by simplify_map_eq).
  cbn in Hs3, Hst. subst st s3. split; [by simplify_map_eq|].
  pose proof (extends_trans _ _ _ _
                (extends_weaken _ _ _ _ (plain_event_no_settle s) He1)
                (extends_weaken _ _ _ _ (verify_event_no_settle s) He2)) as [_ He].
  exact He.
Qed.

(** C10: when the verify stage of a run ends with status 400 or 404, the
    run posts to [/settle] exactly once, the settle stage is not the skip
    sentinel, and it carries the verify stage under
    [diagnostics.verify_response]. *)
Theorem settle_attempted_after_rejected_verify w amount currency memo timeout s result s' v z :
  complete_payment_flow w amount currency memo timeout s = (Ok result, s') ->
  result !! "verify" = Some (VDict v) ->
  v !! "status_code" = Some (VInt z) ->
  z = 400 \/ z = 404 ->
  (exists ev, trace s' = trace s ++ ev /\ count (posts_to "/settle") ev = 1%nat) /\
  exists st diag,
    result !! "settle" = Some (VDict st) /\ st ≠ skip_settle /\
    st !! "diagnostics" = Some (VDict diag) /\
    diag !! "verify_response" = Some (VDict v).
Proof.
  intros Hrun Hv Hz Hzz.
  destruct (flow_has_stages w amount currency memo timeout s)
    as (c & v0 & st & s1 & s2 & s3 & H).
  destruct H as [_ _ _ [Hs3 Hst] Hflow _ He1 He2 _].
  rewrite Hflow in Hrun. injection Hrun as <- <-.
  rewrite lookup_insert_ne, lookup_insert_eq in Hv by done. injection Hv as ->.
  cbv zeta in Hs3, Hst.
  destruct (settle_stage_attempted w (<["verify" := VDict v]> (<["create" := VDict c]> ∅))
              v z amount currency memo timeout s2) as (d & s3' & Hp & E);
    [by simplify_map_eq|done|done|].
  rewrite E in Hs3, Hst. cbn in Hs3, Hst. subst st s3. split.
  - pose proof (extends_trans _ _ _ _
                  (extends_weaken _ _ _ _ (plain_event_no_settle s) He1)
                  (extends_weaken _ _ _ _ (verify_event_no_settle s) He2))
      as [_ (ev & Hev & Hnone)].
    destruct (pp_trace _ _ _ _ _ Hp) as [Ht|Ht]; eexists;
      (split; [by rewrite Ht, Hev, <- app_assoc|]);
      rewrite count_app, (count_none _ _ Hnone); cbn [count];
      by rewrite posts_to_paid by (simpl; lia).
  - eexists _, _. split; [by simplify_map_eq|]. split; [|split; by simplify_map_eq].
    intros Heq. apply (f_equal (fun d => d !! "diagnostics")) in Heq.
    by rewrite lookup_insert_eq in Heq.
Qed.





Lemma extends_count (f : event -> bool) φ s s' :
  (forall e, φ e -> f e = false) -> extends φ s s' ->
  exists ev, trace s' = trace s ++ ev /\ count f ev = 0%nat.
Proof.
  intros Hf [_ (ev & Ht & Hall)]. exists ev. split; [done|]. apply count_none.
  eapply Forall_impl; eauto.
Qed.






Lemma plain_event_addressed s paths e :
  plain_event s paths e -> addressed_to (rstrip_slash (facilitator_url s)) e.
Proof.
  intros [[t ->]|(p & a & c & m & t & Hp & ->)]; cbn.
  - apply startswith_app.
  - apply startswith_rstrip_app.
Qed.

Lemma signing_event_addressed s e :
  signing_event s e -> addressed_to (rstrip_slash (facilitator_url s)) e.
Proof. intros [(d & k & ->)|(d & sig & ->)]; cbn; [done|]. apply startswith_app. Qed.

Lemma verify_event_addressed s e :
  verify_event s e -> addressed_to (rstrip_slash (facilitator_url s)) e.
Proof. intros [H|H]; [by eapply plain_event_addressed|by apply signing_event_addressed]. Qed.

Lemma extends_keeps_url φ s s' :
  (forall e, φ e -> addressed_to (rstrip_slash (facilitator_url s)) e) ->
  extends φ s s' -> keeps_url s s'.
Proof.
  intros Hφ [(Hu & _) (ev & Ht & Hall)]. split; [done|]. exists ev. split; [done|].
  eapply Forall_impl; eauto.
Qed.

Lemma keeps_url_same s s' :
  facilitator_url s' = facilitator_url s -> trace s' = trace s -> keeps_url s s'.
Proof. intros Hu Ht. split; [done|]. exists []. by rewrite app_nil_r. Qed.

Lemma keeps_url_refl s : keeps_url s s.
Proof. by apply keeps_url_same. Qed.

Lemma keeps_url_trans s1 s2 s3 : keeps_url s1 s2 -> keeps_url s2 s3 -> keeps_url s1 s3.
Proof.
  intros [Hu1 (ev1 & Ht1 & Hf1)] [Hu2 (ev2 & Ht2 & Hf2)]. split; [congruence|].
  exists (ev1 ++ ev2). split; [by rewrite Ht2, Ht1, app_assoc|].
  apply Forall_app. split; [done|]. by rewrite <- Hu1.
Qed.

Lemma run_call_keeps_url w c s : keeps_url s (run_call w c s).
Proof.
  destruct c as [t|p a cur m t|a cur m|a cur m|a cur m t|]; cbn [run_call].
  - eapply extends_keeps_url; [apply (plain_event_addressed s [])|].
    apply discover_extends, same_config_refl.
  - destruct (paid_api_call_spec w p a cur m t s) as (d & s' & E & Hp). rewrite E.
    eapply extends_keeps_url; [apply (plain_event_addressed s [p])|].
    eapply paid_post_extends; eauto using same_config_refl. set_solver.
  - eapply extends_keeps_url; [apply (plain_event_addressed s create_paths)|].
    apply (create_payment_session_spec w a cur m s).
  - destruct (verify_with_signature_spec w a cur m s) as (d & s' & E & Hp). rewrite E.
    eapply extends_keeps_url; [apply signing_event_addressed|].
    eapply signed_post_extends; eauto using same_config_refl.
  - destruct (flow_has_stages w a cur m t s) as (c & v & st & s1 & s2 & s3 & H).
    destruct H as [_ _ _ _ Hflow _ He1 He2 He3]. rewrite Hflow. cbn [snd].
    eapply keeps_url_trans; [|eapply keeps_url_trans].
    + eapply extends_keeps_url; [apply plain_event_addressed|exact He1].
    + eapply extends_keeps_url; [|exact He2].
      intros e He. rewrite (proj1 (proj1 He1)). by apply verify_event_addressed.
    + eapply extends_keeps_url; [|exact He3].
      intros e He. rewrite (proj1 (proj1 He2)), (proj1 (proj1 He1)).
      by eapply plain_event_addressed.
  - unfold init_wallet. destruct (Account w) as [acc|]; [|apply keeps_url_refl].
    unfold bind, get, lift, modify, ret.
    destruct (from_key acc _); by apply keeps_url_same.
Qed.

Lemma session_keeps_url w cs s : keeps_url s (session w cs s).
Proof.
  revert s. induction cs as [|c cs IH]; intros s; [apply keeps_url_refl|].
  cbn [session fold_left]. eapply keeps_url_trans; [apply run_call_keeps_url|apply IH].
Qed.

Lemma wp_wallet_guard w (Q : res unit -> agent -> Prop) s :
  (forall s', facilitator_url s' = facilitator_url s -> trace s' = trace s ->
              wallet_private_key s' = wallet_private_key s -> Q (Ok tt) s') ->
  wp (try_ (init_wallet w ;;; ret tt) (fun _ => ret tt)) Q s.
Proof.
  intros H. apply wp_try. unfold init_wallet. destruct (Account w) as [acc|].
  - apply wp_bind, wp_bind, wp_get, wp_bind, wp_lift.
    destruct (from_key acc _); [|by apply wp_ret, H].
    apply wp_bind, wp_modify, wp_ret, wp_ret. by apply H.
  - apply wp_bind, wp_raise, wp_ret. by apply H.
Qed.

Lemma unusable_probe o : probe_unusable o -> unusable (probe_info o) = Ok true.
Proof.
  destruct o as [r|e]; cbn; intros H; [|done].
  unfold unusable. rewrite !(dict_get_lookup _ _ (VInt (resp_status r))) by by simplify_map_eq.
  cbn. destruct (resp_status r =? 0) eqn:E; [done|]. f_equal. apply Z.leb_le.
  apply Z.eqb_neq in E. lia.
Qed.

(** C5: when the probe [GET {primary}/list] of the constructor fails, or
    answers with status 0 or at least 500, the constructor does not raise, it
    leaves the mock URL as [facilitator_url] after exactly two probes (the
    primary, then the mock, whose outcome is only stored), and in any
    sequence of calls on that agent the URL stays the mock one and every
    request goes to it, none to the primary URL. *)
Theorem mock_fallback_is_session_wide w url key net t0 :
  probe_unusable (transport w t0 (list_request (primary_url w url) 3)) ->
  exists a,
    X402PaymentAgent w url key net t0 = (Ok tt, a) /\
    facilitator_url a = mock_url w /\
    trace a = t0 ++ [EvHttp (list_request (primary_url w url) 3);
                     EvHttp (list_request (mock_url w) 5)] /\
    _facilitator_info a =
      probe_info (transport w (t0 ++ [EvHttp (list_request (primary_url w url) 3)])
                            (list_request (mock_url w) 5)) /\
    forall cs,
      facilitator_url (session w cs a) = mock_url w /\
      exists ev,
        trace (session w cs a) = trace a ++ ev /\
        Forall (addressed_to (rstrip_slash (mock_url w))) ev /\
        forall r x,
          EvHttp r ∈ ev ->
          startswith (rstrip_slash (mock_url w)) (primary_url w url +:+ x) = false ->
          req_url r ≠ primary_url w url +:+ x.
Proof.
  intros Hbad.
  assert (wp (__init__ w url key net)
             (fun r a =>
                r = Ok tt /\ facilitator_url a = mock_url w /\
                trace a = t0 ++ [EvHttp (list_request (primary_url w url) 3);
                                 EvHttp (list_request (mock_url w) 5)] /\
                _facilitator_info a =
                  probe_info (transport w (t0 ++ [EvHttp (list_request (primary_url w url) 3)])
                                        (list_request (mock_url w) 5)))
             (Agent "" None None None None ∅ t0)) as Hinit.
  { unfold __init__. apply wp_bind, wp_modify, wp_bind, wp_get.
    set (a0 := Agent _ _ _ None None _ _).
    assert (forall s', facilitator_url s' = facilitator_url a0 -> trace s' = trace a0 ->
              wp (modify (set_facilitator_info ∅) ;;;
                  try_ (info <- discover_facilitator w 3 ;;
                        bad <- lift (unusable info) ;;
                        if bad then fall_back w else ret tt)
                       (fun _ => fall_back w))
                 (fun r a =>
                    r = Ok tt /\ facilitator_url a = mock_url w /\
                    trace a = t0 ++ [EvHttp (list_request (primary_url w url) 3);
                                     EvHttp (list_request (mock_url w) 5)] /\
                    _facilitator_info a =
                      probe_info (transport w (t0 ++ [EvHttp (list_request (primary_url w url) 3)])
                                            (list_request (mock_url w) 5))) s') as Hrest.
    { intros s' Hu Ht. apply wp_bind, wp_modify, wp_try, wp_bind, wp_discover.
      unfold probe_request. cbn [facilitator_url trace set_facilitator_info log set_trace].
      rewrite Hu, Ht. cbn [facilitator_url trace a0].
      fold (primary_url w url). fold (list_request (primary_url w url) 3).
      rewrite (unusable_probe _ Hbad).
      apply wp_bind, wp_lift. unfold fall_back. apply wp_bind, wp_modify, wp_try, wp_bind, wp_discover.
      apply wp_ret. unfold probe_request.
      cbn [facilitator_url trace set_facilitator_info set_facilitator_url log set_trace
             _facilitator_info].
      rewrite Ht. cbn [trace a0]. fold (list_request (mock_url w) 5).
      by rewrite <- app_assoc. }
    destruct (truthy_opt (wallet_private_key a0)).
    - apply wp_bind, wp_wallet_guard. intros s' Hu Ht _. by apply Hrest.
    - apply wp_bind, wp_ret. by apply Hrest. }
  unfold wp in Hinit. unfold X402PaymentAgent.
  destruct (__init__ w url key net _) as [r a]. cbn [fst snd] in Hinit.
  destruct Hinit as (-> & Hu & Ht & Hi).
  exists a. split; [done|]. split; [done|]. split; [done|]. split; [done|].
  intros cs. destruct (session_keeps_url w cs a) as [Hu' (ev & Hev & Hall)].
  rewrite Hu in Hu', Hall. split; [done|]. exists ev. split; [done|]. split; [done|].
  intros r x Hin Hns Heq.
  rewrite Forall_forall in Hall. specialize (Hall _ Hin). cbn in Hall. congruence.
Qed.

Lemma reports_intro (o : res response) (d : dict) :
  (forall r, o = Ok r -> resp_status r ≠ 0) ->
  match o with
  | Ok r => d !! "status_code" = Some (VInt (resp_status r))
  | Raise e => d !! "status_code" = Some (VInt 0) /\ d !! "error" = Some (VStr (exn_str e))
  end ->
  reports o d.
Proof.
  intros Hnz H. split; [|done]. destruct o as [r|e].
  - split; [|by intros [e He]]. rewrite H. intros [= E]. by destruct (Hnz r).
  - split; [by eexists|]. intros _. apply H.
Qed.

(** C6: in a world whose HTTP responses never carry status 0,
    [paid_api_call], [verify_with_signature] and [x402_payment_tool] return a
    result whose ["status_code"] is 0 exactly when the call they report
    raised in the transport, with [str(e)] under ["error"]; a response is
    reported with its own status, 4xx and 5xx included. *)
Theorem status_zero_iff_transport_failure w :
  (forall t req r, transport w t req = Ok r -> resp_status r ≠ 0) ->
  (forall path amount currency metadata timeout s,
     exists d s',
       paid_api_call w path amount currency metadata timeout s = (Ok d, s') /\
       reports (transport w (trace s) (paid_request s path amount currency metadata timeout)) d) /\
  (forall amount currency memo s,
     exists d s' t1 req,
       verify_with_signature w amount currency memo s = (Ok d, s') /\
       trace s' = t1 ++ [EvHttp req] /\ req_method req = POST /\
       reports (transport w t1 req) d) /\
  (forall amount currency memo url key net t,
     exists d t1 req,
       x402_payment_tool w amount currency memo url key net t = (Ok d, t1 ++ [EvHttp req]) /\
       req_method req = POST /\
       reports (transport w t1 req) d).
Proof.
  intros Hnz. split; [|split].
  - intros path amount currency metadata timeout s.
    destruct (paid_api_call_spec w path amount currency metadata timeout s)
      as (d & s' & E & Hp).
    exists d, s'. split; [done|]. apply reports_intro; [eauto|].
    pose proof (pp_outcome _ _ _ _ _ Hp) as Ho.
    destruct (transport w (trace s) _); [apply Ho|]. subst d. by simplify_map_eq.
  - intros amount currency memo s.
    destruct (verify_with_signature_spec w amount currency memo s) as (d & s' & E & Hp).
    exists d, s'. eexists _, _. split; [done|].
    split; [rewrite (sp_trace _ _ _ _ _ Hp), app_assoc; reflexivity|]. split; [done|].
    apply reports_intro; [eauto|].
    pose proof (sp_outcome _ _ _ _ _ Hp) as Ho.
    destruct (transport w _ _); [apply Ho|done].
  - intros amount currency memo url key net t.
    unfold x402_payment_tool, bind at 1, try_ at 1, bind at 1, client_request at 1, ret.
    set (payload := tool_payload w amount currency memo key net).
    set (url0 := or_str _ _).
    set (probe := Request GET _ _ _ _).
    assert (exists u,
              (match
                 (match transport w t probe with
                  | Ok a => (Ok (if (resp_status a =? 0) || (500 <=? resp_status a)
                                 then mock_url w else url0), t ++ [EvHttp probe])
                  | Raise e => (Raise e, t ++ [EvHttp probe])
                  end)
               with
               | (Ok a, s') => (Ok a, s')
               | (Raise e, s') => (Ok (mock_url w), s')
               end) = (Ok u, t ++ [EvHttp probe])) as [u Hu].
    { destruct (transport w t probe); eexists; reflexivity. }
    match goal with |- context [let (r, s') := ?x in _] =>
      replace x with (@Ok string u, t ++ [EvHttp probe])
        by (symmetry; apply Hu) end.
    cbv beta iota.
    unfold bind at 1, try_ at 1, bind at 1, client_request at 1, ret.
    set (create := Request POST (rstrip_slash u +:+ "/create_payment") _ _ _).
    destruct (transport w (t ++ [EvHttp probe]) create) as [r|e] eqn:Ec.
    + destruct (resp_status r =? 404) eqn:E404.
      * unfold try_, bind, client_request, ret.
        set (verify := Request POST (rstrip_slash u +:+ "/verify") _ _ _).
        destruct (transport w ((t ++ [EvHttp probe]) ++ [EvHttp create]) verify) as [r2|e2] eqn:Ev;
          eexists _, _, verify; (split; [reflexivity|]); (split; [done|]);
          (apply reports_intro; [eauto|]); rewrite Ev;
          unfold tool_result, tool_error; by simplify_map_eq.
      * eexists _, _, create. split; [reflexivity|]. split; [done|].
        apply reports_intro; [eauto|]. rewrite Ec. unfold tool_result. by simplify_map_eq.
    + eexists _, _, create. split; [reflexivity|]. split; [done|].
      apply reports_intro; [eauto|]. rewrite Ec. unfold tool_error. by simplify_map_eq.
Qed.

Lemma sign_outcome_fails w s data : signing_fails w s data -> (sign_outcome w s data).1 = None.
Proof.
  unfold signing_fails, sign_outcome. destruct (Account w) as [acc|]; [|done].
  by intros [e ->].
Qed.

(** C7: when [eth_account] is missing or its signing call raises,
    [_sign_eip712] returns [None], [verify_with_signature] still ends with a
    POST to [/verify] whose body has ["signature"] null beside the intent,
    and returns a result with a status; [complete_payment_flow] returns. *)
Theorem signing_failure_is_not_fatal w amount currency memo timeout s :
  signing_fails w s (_build_eip712_intent w s amount currency memo) ->
  (exists s0, _sign_eip712 w (_build_eip712_intent w s amount currency memo) s = (Ok None, s0)) /\
  (exists d s' t1 body,
     verify_with_signature w amount currency memo s = (Ok d, s') /\
     trace s' = t1 ++ [EvHttp (Request POST (rstrip_slash (facilitator_url s) +:+ "/verify")
                                       json_headers (Some (VDict body)) (Some 30))] /\
     body !! "signature" = Some VNone /\
     body !! "eip712" = Some (VDict (_build_eip712_intent w s amount currency memo)) /\
     has_status d) /\
  (exists result s', complete_payment_flow w amount currency memo timeout s = (Ok result, s')).
Proof.
  intros Hf. pose proof (sign_outcome_fails _ _ _ Hf) as Hnone. split; [|split].
  - rewrite _sign_eip712_run, Hnone. by eexists.
  - destruct (verify_with_signature_spec w amount currency memo s) as (d & s' & E & Hp).
    exists d, s'. eexists _, _. split; [done|].
    split; [rewrite (sp_trace _ _ _ _ _ Hp), app_assoc; reflexivity|].
    rewrite Hnone. unfold signed_body. split; [by simplify_map_eq|].
    split; [by simplify_map_eq|]. by eapply signed_post_has_status.
  - destruct (flow_has_stages w amount currency memo timeout s)
      as (c & v & st & s1 & s2 & s3 & H).
    eexists _, _. exact (fs_flow _ _ _ _ _ _ _ _ _ _ _ _ H).
Qed.

(** C8: for every agent, environment, amount, currency and memo,
    [_build_eip712_intent] has primary type ["Payment"] and the domain
    name ["x402 Payment"], version ["1"], chain 1 and the all-zero verifying
    contract.  Being a function of its arguments, it does no I/O. *)
Theorem build_intent_fixed_domain w s amount currency memo :
  _build_eip712_intent w s amount currency memo !! "primaryType" = Some (VStr "Payment") /\
  _build_eip712_intent w s amount currency memo !! "domain" = Some (VDict eip712_domain) /\
  eip712_domain !! "name" = Some (VStr "x402 Payment") /\
  eip712_domain !! "version" = Some (VStr "1") /\
  eip712_domain !! "chainId" = Some (VInt 1) /\
  eip712_domain !! "verifyingContract" =
    Some (VStr "0x0000000000000000000000000000000000000000").
Proof.
  unfold _build_eip712_intent, eip712_domain. repeat split; by simplify_map_eq.
Qed.

Lemma b64_value_bounds c v : b64_value c = Some v -> 0 <= v < 64.
Proof.
  unfold b64_value. intros H.
  repeat (destruct (_ : bool) eqn:? in H; [injection H as <-; lia|]).
  discriminate.
Qed.

Lemma code_chr z : 0 <= z < 256 -> code (chr z) = z.
Proof.
  intros Hz. unfold code, chr. rewrite nat_ascii_embedding by lia. lia.
Qed.

Lemma b64_value_first c : 
  (b64_value c = Some 30 -> c = "e"%char) /\ (b64_value c = Some 22 -> c = "W"%char).
Proof.
  destruct c as [[] [] [] [] [] [] [] []]; vm_compute; split; intros H; congruence.
Qed.

Lemma b64decode_head h c t :
  b64decode h = Some (String c t) ->
  exists a b r va vb, h = String a (String b r) /\ b64_value a = Some va /\
                      b64_value b = Some vb /\ c = chr (va * 4 + vb / 16).
Proof.
  destruct h as [|a [|b [|c0 [|d rest]]]]; try discriminate.
  cbn [b64decode]. intros H.
  destruct (b64_value a) as [va|] eqn:Ha; [|discriminate].
  destruct (b64_value b) as [vb|] eqn:Hb; [|discriminate].
  exists a, b, (String c0 (String d rest)), va, vb. repeat split; try done.
  cbn [mbind option_bind] in H.
  repeat (match type of H with
          | context [if ?x then _ else _] => destruct x
          | context [match ?x with Some _ => _ | None => _ end] => destruct x
          | context [mbind _ ?x] => destruct x; cbn [mbind option_bind] in H
          end; try discriminate);
  by injection H as <- _.
Qed.

Lemma b64_of_object h c t :
  b64decode h = Some (String c t) -> c = "{"%char \/ c = "["%char ->
  exists a r, h = String a r /\ begins_json a = false.
Proof.
  intros H Hc. destruct (b64decode_head _ _ _ H) as (a & b & r & va & vb & -> & Ha & Hb & Hch).
  exists a, (String b r). split; [done|].
  pose proof (b64_value_bounds _ _ Ha). pose proof (b64_value_bounds _ _ Hb).
  assert (0 <= vb / 16 < 4) as Hq by (split; [apply Z.div_pos; lia|apply Z.div_lt_upper_bound; lia]).
  assert (code c = va * 4 + vb / 16) as Hcode by (subst c; apply code_chr; lia).
  remember (vb / 16) as q.
  destruct Hc as [Hc|Hc]; rewrite Hc in Hcode.
  - change (code "{") with 123 in Hcode. assert (va = 30) as -> by lia. by rewrite (proj1 (b64_value_first a) Ha).
  - change (code "[") with 91 in Hcode. assert (va = 22) as -> by lia. by rewrite (proj2 (b64_value_first a) Ha).
Qed.

Lemma scan_value_refuses fuel depth c r :
  begins_json c = false -> scan_value fuel depth (String c r) = None.
Proof.
  intros H. destruct fuel; [done|].
  destruct c as [[] [] [] [] [] [] [] []]; try discriminate H; reflexivity.
Qed.

Lemma read_json_grammar c r : begins_json c = false -> read_json (String c r) = None.
Proof.
  intros H. unfold read_json.
  assert (is_ws c = false) as Hws.
  { unfold begins_json in H. by destruct (is_ws c). }
  cbn [skip_ws]. rewrite Hws. by rewrite scan_value_refuses.
Qed.

Lemma decoding_json_grammar : json_grammar decoding.
Proof. intros c r H. apply (read_json_grammar c r H). Qed.

(** C9, as the code has it: [decode_x_payment_response] is a JSON decode of
    the header itself, with no base64 step.  Whatever [json.loads] returns
    for the header is the result, and when it raises the result is
    [{"transaction": header}].  So, with a [json.loads] that follows the
    JSON grammar, every header that is the base64 text of a JSON object or
    array (of any text that begins with an opening brace or bracket) comes
    back raw, never decoded. *)
Theorem decode_x_payment_response_json_only w h :
  (forall v, json_loads w h = Some v -> decode_x_payment_response w h = v) /\
  (json_loads w h = None -> decode_x_payment_response w h = raw_reference h) /\
  (json_grammar w ->
   forall c t, b64decode h = Some (String c t) -> c = "{"%char \/ c = "["%char ->
               decode_x_payment_response w h = raw_reference h).
Proof.
  unfold decode_x_payment_response, raw_reference.
  split; [by intros v ->|]. split; [by intros ->|].
  intros Hg c t Hb Hc.
  destruct (b64_of_object _ _ _ Hb Hc) as (a & r & -> & Ha).
  by rewrite (Hg a r Ha).
Qed.


(** C9, counterexample: ["eyJ0eCI6MX0="] is the base64 text of the JSON
    object [{"tx": 1}].  A base64-then-JSON decoder gives that object;
    [decode_x_payment_response] gives the raw header under ["transaction"]. *)
Lemma decode_x_payment_response_skips_base64 :
  b64decode encoded_object ≫= read_json = Some (VDict {[ "tx" := VInt 1 ]}) /\
  spec_base64_json_decode decoding encoded_object = VDict {[ "tx" := VInt 1 ]} /\
  decode_x_payment_response decoding encoded_object
    = VDict {[ "transaction" := VStr "eyJ0eCI6MX0=" ]} /\
  decode_x_payment_response decoding encoded_object
    <> spec_base64_json_decode decoding encoded_object.
Proof.
  assert (spec_base64_json_decode decoding encoded_object = VDict {[ "tx" := VInt 1 ]}) as H1
    by (vm_compute; reflexivity).
  assert (decode_x_payment_response decoding encoded_object
          = VDict {[ "transaction" := VStr "eyJ0eCI6MX0=" ]}) as H2
    by (vm_compute; reflexivity).
  split; [vm_compute; reflexivity|].
  split; [done|]. split; [done|]. rewrite H1, H2. intros E. discriminate E.
Qed.


Lemma create_404_object_payload w amount currency memo s d1 s1 d2 s2 z p :
  paid_api_call w "create_payment" amount currency (memo_metadata memo) 30 s = (Ok d1, s1) ->
  d1 !! "status_code" = Some (VInt 404) ->
  paid_api_call w "verify" amount currency (memo_metadata memo) 30 s1 = (Ok d2, s2) ->
  d2 !! "status_code" = Some (VInt z) ->
  in_2xx z = true ->
  d2 !! "payload" = Some (VDict p) ->
  exists c cp,
    create_payment_session w amount currency memo s = (Ok c, s2) /\
    c !! "status_code" = Some (VInt z) /\
    c !! "payload" = Some (VDict cp) /\
    cp !! "status" = Some (VStr "verified-as-create").
Proof.
  intros E1 H1 E2 H2 Hz Hp.
  unfold create_payment_session, bind at 1. rewrite E1.
  rewrite (dict_get_lookup _ _ _ _ H1). cbn [eq_int]. cbv beta iota zeta.
  change (404 =? 404) with true. cbv iota.
  unfold bind at 1. rewrite E2.
  rewrite !(dict_get_lookup _ _ _ _ H2), !(dict_get_lookup _ _ _ _ Hp).
  cbn [as_int py_get]. unfold bind, lift, ret. rewrite Hz.
  eexists _, _. split; [reflexivity|]. repeat split; by simplify_map_eq.
Qed.

Lemma create_404_other_payload w amount currency memo s d1 s1 d2 s2 z p :
  paid_api_call w "create_payment" amount currency (memo_metadata memo) 30 s = (Ok d1, s1) ->
  d1 !! "status_code" = Some (VInt 404) ->
  paid_api_call w "verify" amount currency (memo_metadata memo) 30 s1 = (Ok d2, s2) ->
  d2 !! "status_code" = Some (VInt z) ->
  in_2xx z = true ->
  d2 !! "payload" = Some p ->
  (forall d, p <> VDict d) ->
  create_payment_session w amount currency memo s =
    (Raise (Exn "AttributeError" ("'" +:+ type_name p +:+ "' object has no attribute 'get'")), s2).
Proof.
  intros E1 H1 E2 H2 Hz Hp Hnd.
  unfold create_payment_session, bind at 1. rewrite E1.
  rewrite (dict_get_lookup _ _ _ _ H1). cbn [eq_int]. cbv beta iota zeta.
  change (404 =? 404) with true. cbv iota.
  unfold bind at 1. rewrite E2.
  rewrite !(dict_get_lookup _ _ _ _ H2), !(dict_get_lookup _ _ _ _ Hp).
  cbn [as_int]. unfold bind at 1, lift at 1. rewrite Hz.
  unfold bind at 1, lift at 1.
  destruct p; try reflexivity. by destruct (Hnd d).
Qed.

(** C4, at a facilitator that answers 404 to [POST /create_payment] and 200
    with the JSON array [[]] to [POST /verify]: the verify call is made with
    the payload of the create call and answered with a 2xx status, and
    [create_payment_session] raises [AttributeError] where it reads
    [.get("id")] from the payload, instead of returning a result labelled
    ["verified-as-create"].  In [complete_payment_flow] the create stage is
    then the error result with status 0, and verify and settle are skipped. *)
Theorem create_404_array_payload_raises :
  transport array_verify (trace (started array_verify)) array_create = reply 404 "{}" /\
  req_json array_verify_call = req_json array_create /\
  transport array_verify (trace (started array_verify) ++ [EvHttp array_create])
            array_verify_call = reply 200 "[]" /\
  create_payment_session array_verify cent "USD" None (started array_verify) =
    (Raise no_get, array_after) /\
  complete_payment_flow array_verify cent "USD" None 30 (started array_verify) =
    (Ok {[ "create" := VDict (error_result no_get);
           "verify" := VDict skip_verify;
           "settle" := VDict skip_settle ]}, array_after).
Proof.
  split; [reflexivity|]. split; [reflexivity|]. split; [reflexivity|].
  split; vm_compute; reflexivity.
Qed.



Lemma settle_skipped_after_failed_verify_witness :
  status_of (stage "verify" (outcome (flow failing_verify).1)) = 500 /\
  outcome (flow failing_verify).1 !! "settle" = Some (VDict skip_settle) /\
  exists ev, trace (flow failing_verify).2 = trace (started failing_verify) ++ ev /\
             Forall (fun e => posts_to "/settle" e = false) ev.
Proof.
  split; [vm_compute; reflexivity|].
  apply (settle_skipped_after_failed_verify failing_verify cent "USD" None 30
           (started failing_verify) (outcome (flow failing_verify).1) (flow failing_verify).2
           (stage "verify" (outcome (flow failing_verify).1)) 500).
  - vm_compute; reflexivity.
  - vm_compute; reflexivity.
  - vm_compute; reflexivity.
  - lia.
  - lia.
  - lia.
Defined.

Lemma settle_attempted_after_rejected_verify_witness :
  status_of (stage "verify" (outcome (flow rejecting_verify).1)) = 400 /\
  (exists ev, trace (flow rejecting_verify).2 = trace (started rejecting_verify) ++ ev /\
              count (posts_to "/settle") ev = 1%nat) /\
  exists st diag,
    outcome (flow rejecting_verify).1 !! "settle" = Some (VDict st) /\ st ≠ skip_settle /\
    st !! "diagnostics" = Some (VDict diag) /\
    diag !! "verify_response" = Some (VDict (stage "verify" (outcome (flow rejecting_verify).1))).
Proof.
  split; [vm_compute; reflexivity|].
  apply (settle_attempted_after_rejected_verify rejecting_verify cent "USD" None 30
           (started rejecting_verify) (outcome (flow rejecting_verify).1)
           (flow rejecting_verify).2 (stage "verify" (outcome (flow rejecting_verify).1)) 400).
  - vm_compute; reflexivity.
  - vm_compute; reflexivity.
  - vm_compute; reflexivity.
  - left; reflexivity.
Defined.



Lemma mock_fallback_is_session_wide_witness :
  probe_unusable (transport offline [] (list_request (primary_url offline default_facilitator_url) 3)) /\
  exists a,
    X402PaymentAgent offline default_facilitator_url None None [] = (Ok tt, a) /\
    facilitator_url a = default_mock_url /\
    forall cs, facilitator_url (session offline cs a) = default_mock_url.
Proof.
  assert (probe_unusable (transport offline []
            (list_request (primary_url offline default_facilitator_url) 3))) as H
    by (simpl; exact I).
  split; [exact H|].
  destruct (mock_fallback_is_session_wide offline default_facilitator_url None None [] H)
    as (a & Hrun & Hurl & _ & _ & Hall).
  exists a. split; [exact Hrun|]. split; [exact Hurl|].
  intros cs. exact (proj1 (Hall cs)).
Defined.

Lemma status_zero_iff_transport_failure_witness :
  (forall t req r, transport rejecting_verify t req = Ok r -> resp_status r ≠ 0) /\
  forall path amount currency metadata timeout s,
    exists d s',
      paid_api_call rejecting_verify path amount currency metadata timeout s = (Ok d, s') /\
      reports (transport rejecting_verify (trace s)
                 (paid_request s path amount currency metadata timeout)) d.
Proof.
  assert (forall t req r, transport rejecting_verify t req = Ok r -> resp_status r ≠ 0) as H.
  { intros t req r. simpl.
    repeat (destruct (ends_with _ _)); intros E; inversion E; simpl; lia. }
  split; [exact H|].
  exact (proj1 (status_zero_iff_transport_failure rejecting_verify H)).
Defined.

Lemma signing_failure_is_not_fatal_witness :
  signing_fails broken_signing (started broken_signing)
    (_build_eip712_intent broken_signing (started broken_signing) cent "USD" None) /\
  (exists s0, _sign_eip712 broken_signing
                (_build_eip712_intent broken_signing (started broken_signing) cent "USD" None)
                (started broken_signing) = (Ok None, s0)) /\
  (exists result s', complete_payment_flow broken_signing cent "USD" None 30
                       (started broken_signing) = (Ok result, s')).
Proof.
  assert (signing_fails broken_signing (started broken_signing)
            (_build_eip712_intent broken_signing (started broken_signing) cent "USD" None)) as H
    by (simpl; eexists; reflexivity).
  split; [exact H|].
  destruct (signing_failure_is_not_fatal broken_signing cent "USD" None 30
              (started broken_signing) H) as (H1 & _ & H3).
  split; [exact H1|exact H3].
Defined.

Lemma decode_x_payment_response_json_only_witness :
  json_grammar decoding /\
  decode_x_payment_response decoding "[1, 2]" = VList [VInt 1; VInt 2] /\
  decode_x_payment_response decoding "1234" = VInt 1234 /\
  decode_x_payment_response decoding "tx_12345" = raw_reference "tx_12345" /\
  decode_x_payment_response decoding encoded_object = raw_reference encoded_object.
Proof.
  split; [exact decoding_json_grammar|]. split; [|split; [|split]].
  - apply (proj1 (decode_x_payment_response_json_only decoding "[1, 2]")).
    vm_compute; reflexivity.
  - apply (proj1 (decode_x_payment_response_json_only decoding "1234")).
    vm_compute; reflexivity.
  - apply (proj1 (proj2 (decode_x_payment_response_json_only decoding "tx_12345"))).
    vm_compute; reflexivity.
  - apply (proj2 (proj2 (decode_x_payment_response_json_only decoding encoded_object))
             decoding_json_grammar "{"%char (String dquote ("tx" +:+ String dquote ":1}"))).
    + vm_compute; reflexivity.
    + left; reflexivity.
Defined.


(** * Further properties of the code *)

Lemma full_create_run w base payload t :
  full_create w base payload t =
    (Ok (match transport w t (tool_request (base +:+ "/create_payment") payload) with
         | Ok r => tool_result r
         | Raise e => tool_error e payload
         end),
     t ++ [EvHttp (tool_request (base +:+ "/create_payment") payload)]).
Proof.
  unfold full_create, try_, bind, tool_post, client_request, ret, tool_request.
  by destruct (transport w t _).
Qed.

Lemma full_verify_run w base payload (results c : dict) z t :
  results !! "create" = Some (VDict c) -> c !! "status_code" = Some (VInt z) ->
  full_verify w base payload results t =
    if (z =? 404) || in_2xx z
    then (Ok (<["verify" := VDict (match transport w t (tool_request (base +:+ "/verify") payload) with
                                   | Ok r => tool_result r
                                   | Raise e => error_result e
                                   end)]> results),
          t ++ [EvHttp (tool_request (base +:+ "/verify") payload)])
    else (Ok (<["verify" := VDict skip_verify]> results), t).
Proof.
  intros Hr Hc. unfold full_verify, try_, bind, lift, tool_post, client_request, ret, tool_request.
  rewrite (dict_get_lookup _ _ _ _ Hr), (py_get_status _ _ Hc). cbn [eq_int as_int].
  destruct (z =? 404); cbn [orb]; [by destruct (transport w t _)|].
  destruct (in_2xx z); [by destruct (transport w t _)|done].
Qed.

Lemma full_settle_run w base payload (results v : dict) z t :
  results !! "verify" = Some (VDict v) -> v !! "status_code" = Some (VInt z) ->
  full_settle w base payload results t =
    if in_2xx z
    then (Ok (<["settle" := VDict (match transport w t (tool_request (base +:+ "/settle") payload) with
                                   | Ok r => tool_result r
                                   | Raise e => tool_error e payload
                                   end)]> results),
          t ++ [EvHttp (tool_request (base +:+ "/settle") payload)])
    else (Ok (<["settle" := VDict skip_settle]> results), t).
Proof.
  intros Hr Hv. unfold full_settle, try_, bind, lift, tool_post, client_request, ret, tool_request.
  rewrite (dict_get_lookup _ _ _ _ Hr), (py_get_status _ _ Hv). cbn [as_int].
  destruct (in_2xx z); [by destruct (transport w t _)|done].
Qed.

Lemma tool_result_status r : tool_result r !! "status_code" = Some (VInt (resp_status r)).
Proof. unfold tool_result. by simplify_map_eq. Qed.

Lemma tool_error_status e p : tool_error e p !! "status_code" = Some (VInt 0).
Proof. unfold tool_error, error_result. by simplify_map_eq. Qed.

Lemma error_result_status e : error_result e !! "status_code" = Some (VInt 0).
Proof. unfold error_result. by simplify_map_eq. Qed.

(** What the three stages of [x402_payment_full_flow] give, from the answers
    of the transport. *)
Lemma full_flow_run w amount currency memo url key net t :
  let payload := full_flow_payload w amount currency memo key net in
  let rq p := tool_request (full_flow_base w url +:+ p) payload in
  let c := transport w t (rq "/create_payment") in
  let t1 := t ++ [EvHttp (rq "/create_payment")] in
  let goes := (reported_status c =? 404) || in_2xx (reported_status c) in
  let v := transport w t1 (rq "/verify") in
  let t2 := if goes then t1 ++ [EvHttp (rq "/verify")] else t1 in
  let settles := goes && in_2xx (reported_status v) in
  let st := transport w t2 (rq "/settle") in
  x402_payment_full_flow w amount currency memo url key net t =
    (Ok (<["settle" := VDict (if settles
                              then match st with Ok r => tool_result r
                                               | Raise e => tool_error e payload end
                              else skip_settle)]>
           (<["verify" := VDict (if goes
                                 then match v with Ok r => tool_result r
                                                 | Raise e => error_result e end
                                 else skip_verify)]>
              (<["create" := VDict (match c with Ok r => tool_result r
                                               | Raise e => tool_error e payload end)]> ∅))),
     if settles then t2 ++ [EvHttp (rq "/settle")] else t2).
Proof.
  cbv zeta. unfold x402_payment_full_flow. fold (full_flow_base w url).
  set (payload := full_flow_payload w amount currency memo key net).
  set (base := full_flow_base w url).
  unfold bind at 1. rewrite full_create_run.
  set (c := transport w t _).
  set (cd := match c with Ok r => tool_result r | Raise e => tool_error e payload end).
  assert (cd !! "status_code" = Some (VInt (reported_status c))) as Hc.
  { subst cd. destruct c; [apply tool_result_status|apply tool_error_status]. }
  unfold bind at 1.
  rewrite (full_verify_run w base payload _ cd (reported_status c)) by (done || by simplify_map_eq).
  destruct ((reported_status c =? 404) || in_2xx (reported_status c)); cbn [andb].
  - set (v := transport w _ (tool_request (base +:+ "/verify") payload)).
    set (vd := match v with Ok r => tool_result r | Raise e => error_result e end).
    assert (vd !! "status_code" = Some (VInt (reported_status v))) as Hv.
    { subst vd. destruct v; [apply tool_result_status|apply error_result_status]. }
    unfold bind.
    rewrite (full_settle_run w base payload _ vd (reported_status v)) by (done || by simplify_map_eq).
    by destruct (in_2xx (reported_status v)).
  - unfold bind.
    rewrite (full_settle_run w base payload _ skip_verify 0) by (done || by simplify_map_eq).
    done.
Qed.



(** X3: [x402_payment_full_flow] stops at the first failure.  A create
    status outside [200, 300) and other than 404 leaves both later stages as
    their skip sentinels after the single create call; a verify status
    outside [200, 300), 400 and 404 included, leaves settle as the skip
    sentinel with no POST to [/settle]. *)
Theorem x402_payment_full_flow_stops w amount currency memo url key net t results t' :
  x402_payment_full_flow w amount currency memo url key net t = (Ok results, t') ->
  (forall c z, results !! "create" = Some (VDict c) -> c !! "status_code" = Some (VInt z) ->
     in_2xx z = false -> z ≠ 404 ->
     results !! "verify" = Some (VDict skip_verify) /\
     results !! "settle" = Some (VDict skip_settle) /\
     t' = t ++ [EvHttp (tool_request (full_flow_base w url +:+ "/create_payment")
                          (full_flow_payload w amount currency memo key net))]) /\
  (forall v z, results !! "verify" = Some (VDict v) -> v !! "status_code" = Some (VInt z) ->
     in_2xx z = false ->
     results !! "settle" = Some (VDict skip_settle) /\
     exists ev, t' = t ++ ev /\ Forall (fun e => posts_to "/settle" e = false) ev).
Proof.
  rewrite (full_flow_run w amount currency memo url key net t). cbv zeta.
  set (payload := full_flow_payload w amount currency memo key net).
  set (base := full_flow_base w url).
  set (c0 := transport w t _).
  set (cd := match c0 with Ok r => tool_result r | Raise e => tool_error e payload end).
  assert (cd !! "status_code" = Some (VInt (reported_status c0))) as Hc.
  { subst cd. destruct c0; [apply tool_result_status|apply tool_error_status]. }
  assert (forall u, posts_to "/settle" (EvHttp (tool_request (base +:+ u) payload))
                    = ends_with "/settle" (base +:+ u)) as Hp by done.
  intros Hrun. split.
  - intros c z Hrc Hz H2 H404.
    destruct (_ || _) eqn:Hgo; cbn [andb] in Hrun; injection Hrun as <- <-.
    + rewrite lookup_insert_ne, lookup_insert_ne, lookup_insert_eq in Hrc by done.
      injection Hrc as <-. rewrite Hc in Hz. injection Hz as <-.
      rewrite H2, orb_false_r in Hgo. apply Z.eqb_eq in Hgo. done.
    + split; [by simplify_map_eq|]. split; [by simplify_map_eq|done].
  - intros v z Hrv Hz H2.
    destruct (_ || _) eqn:Hgo; cbn [andb] in Hrun.
    + set (v0 := transport w _ (tool_request (base +:+ "/verify") payload)) in *.
      assert (match v0 with Ok r => tool_result r | Raise e => error_result e end
                !! "status_code" = Some (VInt (reported_status v0))) as Hv.
      { destruct v0; [apply tool_result_status|apply error_result_status]. }
      destruct (in_2xx (reported_status v0)) eqn:Hs; injection Hrun as <- <-.
      * rewrite lookup_insert_ne, lookup_insert_eq in Hrv by done.
        injection Hrv as <-. rewrite Hv in Hz. injection Hz as <-. congruence.
      * split; [by simplify_map_eq|]. eexists. split; [by rewrite <- app_assoc|].
        apply Forall_cons_2; [|apply Forall_cons_2; [|apply Forall_nil_2]];
          rewrite Hp, ends_with_app by (simpl; lia); reflexivity.
    + injection Hrun as <- <-. split; [by simplify_map_eq|].
      eexists. split; [reflexivity|].
      apply Forall_cons_2; [|apply Forall_nil_2].
      rewrite Hp, ends_with_app by (simpl; lia); reflexivity.
Qed.

(** X4: with [X402_NETWORK] set in the environment and no [network]
    argument, [x402_payment_tool] sends the environment's network while
    [x402_payment_full_flow] sends no ["network"] field. *)
Theorem network_env_only_in_tool w amount currency memo key n :
  getenv w "X402_NETWORK" = Some n -> n ≠ "" ->
  tool_payload w amount currency memo key None !! "network" = Some (VStr n) /\
  full_flow_payload w amount currency memo key None !! "network" = None.
Proof.
  intros He Hn. unfold tool_payload, full_flow_payload. rewrite He.
  assert (truthy_opt (Some n) = true) as Ht.
  { unfold truthy_opt. cbn. apply negb_true_iff, String.eqb_neq. done. }
  assert (or_opt None (Some n) = Some n) as -> by done.
  rewrite Ht. change (truthy_opt None) with false. cbv iota.
  split.
  - destruct (truthy_opt (_derive_address_from_private_key _ _));
      destruct (truthy_opt memo); by simplify_map_eq.
  - destruct (truthy_opt (_derive_address_from_private_key _ _));
      destruct (truthy_opt memo); by simplify_map_eq.
Qed.

Lemma first_match_spec nf l :
  match first_match nf l with
  | Some a => exists l1 l2, l = l1 ++ a :: l2 /\ network_is nf a = true /\
                            Forall (fun b => network_is nf b = false) l1
  | None => Forall (fun b => network_is nf b = false) l
  end.
Proof.
  induction l as [|b l IH]; cbn [first_match]; [by apply Forall_nil_2|].
  destruct (network_is nf b) eqn:Hb.
  - exists [], l. split; [done|]. split; [done|]. by apply Forall_nil_2.
  - destruct (first_match nf l) as [a|].
    + destruct IH as (l1 & l2 & -> & Ha & Hl1). exists (b :: l1), l2.
      split; [done|]. split; [done|]. by apply Forall_cons_2.
    + by apply Forall_cons_2.
Qed.

(** X5: [default_payment_requirements_selector] returns [None] for an
    empty list and for [None]; for a non-empty list it returns an element of
    the list: the first one without a network filter, and with a filter the
    first dict whose ["network"] equals it, or the first element when no
    element matches.  [scheme_filter] and [max_value] play no part. *)
Theorem selector_picks_first_match :
  (forall nf sf mv,
     default_payment_requirements_selector (VList []) nf sf mv = Ok VNone /\
     default_payment_requirements_selector VNone nf sf mv = Ok VNone) /\
  (forall x l nf sf mv,
     exists a l1 l2,
       default_payment_requirements_selector (VList (x :: l)) nf sf mv = Ok a /\
       x :: l = l1 ++ a :: l2 /\
       match nf with
       | None => l1 = []
       | Some f => Forall (fun b => network_is f b = false) l1 /\
                   (network_is f a = true \/
                    (l1 = [] /\ network_is f a = false /\
                     Forall (fun b => network_is f b = false) l2))
       end).
Proof.
  split; [done|]. intros x l nf sf mv.
  unfold default_payment_requirements_selector. cbn [truthy negb py_first].
  destruct nf as [f|]; [|by exists x, [], l].
  pose proof (first_match_spec f (x :: l)) as H.
  destruct (first_match f (x :: l)) as [a|].
  - destruct H as (l1 & l2 & E & Ha & Hl1). exists a, l1, l2. auto.
  - exists x, [], l. split; [done|]. split; [done|]. split; [by apply Forall_nil_2|].
    right. apply Forall_cons in H as [Hx Hl]. done.
Qed.

(** X6: [discover_facilitator] never raises; it issues one GET to
    [{facilitator_url}/list] with the given timeout, changes nothing of the
    agent's configuration, and stores in [_facilitator_info] exactly the
    result it returns, which always has a status: the response, or
    [{status_code: 0, error: str(e)}] when the call raised. *)
Theorem discover_facilitator_caches w timeout s :
  exists info s',
    discover_facilitator w timeout s = (Ok info, s') /\
    _facilitator_info s' = info /\
    has_status info /\
    same_config s s' /\
    trace s' = trace s ++ [EvHttp (list_request (facilitator_url s) timeout)] /\
    match transport w (trace s) (list_request (facilitator_url s) timeout) with
    | Ok r => info = paid_result r
    | Raise e => info = error_result e
    end.
Proof.
  rewrite discover_facilitator_run. cbv zeta. eexists _, _. split; [reflexivity|].
  unfold probe_request, list_request, log.
  cbn [_facilitator_info set_facilitator_info trace set_trace].
  split; [done|]. split.
  - destruct (transport w _ _) as [r|e]; [exists (resp_status r); cbn; by simplify_map_eq|by exists 0].
  - split; [by repeat split|]. split; [done|]. by destruct (transport w _ _).
Qed.

Lemma paid_api_call_2xx w path amount currency metadata timeout s r :
  transport w (trace s) (paid_request s path amount currency metadata timeout) = Ok r ->
  in_2xx (resp_status r) = true ->
  paid_api_call w path amount currency metadata timeout s =
    (Ok (paid_result r),
     log (EvHttp (paid_request s path amount currency metadata timeout)) s).
Proof.
  intros Ho H2.
  unfold paid_api_call, bind at 1, get, try_ at 1, bind at 1, http_post, on_trace, client_request.
  fold (paid_request s path amount currency metadata timeout).
  rewrite Ho, H2. reflexivity.
Qed.

(** X7: the shapes of the result of [paid_api_call].  A call that raised
    gives [{status_code: 0, error}]; a 2xx response gives exactly status,
    payload and headers, after one request; any other response also carries
    the body sent under ["request_body"] and the raw text under
    ["response_text"], and, only when the discovery cache was empty, a fresh
    probe of [/list] under ["facilitator_info"]. *)
Theorem paid_api_call_result w path amount currency metadata timeout s :
  exists d s',
    paid_api_call w path amount currency metadata timeout s = (Ok d, s') /\
    match transport w (trace s) (paid_request s path amount currency metadata timeout) with
    | Raise e =>
        d = error_result e /\
        s' = log (EvHttp (paid_request s path amount currency metadata timeout)) s
    | Ok r =>
        if in_2xx (resp_status r) then
          d = paid_result r /\
          s' = log (EvHttp (paid_request s path amount currency metadata timeout)) s
        else
          d !! "request_body" = Some (VDict (request_body s amount currency metadata)) /\
          d !! "response_text" = Some (VStr (resp_text r)) /\
          (forall k, k ∈ ["status_code"; "payload"; "headers"] -> d !! k = paid_result r !! k) /\
          if truthy (VDict (_facilitator_info s)) then
            d !! "facilitator_info" = None /\
            s' = log (EvHttp (paid_request s path amount currency metadata timeout)) s
          else
            d !! "facilitator_info" = Some (VDict (_facilitator_info s')) /\
            trace s' = trace s ++ [EvHttp (paid_request s path amount currency metadata timeout);
                                   EvHttp (list_request (facilitator_url s) 5)]
    end.
Proof.
  unfold paid_api_call, bind at 1, get, try_ at 1, bind at 1, http_post, on_trace, client_request.
  fold (paid_request s path amount currency metadata timeout).
  set (req := paid_request s path amount currency metadata timeout).
  destruct (transport w (trace s) req) as [r|e] eqn:Ho.
  - destruct (in_2xx (resp_status r)) eqn:H2; cbn [negb].
    + eexists _, _. split; [reflexivity|]. done.
    + unfold bind at 1, get. cbn [_facilitator_info set_trace].
      destruct (truthy (VDict (_facilitator_info s))) eqn:Ht; cbn [negb].
      * eexists _, _. split; [reflexivity|].
        split; [by simplify_map_eq|]. split; [by simplify_map_eq|].
        split; [|split; [by simplify_map_eq|done]].
        intros k Hk. unfold paid_result.
        repeat (apply elem_of_cons in Hk as [->|Hk]); try by simplify_map_eq.
        by apply elem_of_nil in Hk.
      * unfold try_, bind. rewrite discover_facilitator_run. cbv zeta. unfold get, ret.
        eexists _, _. split; [reflexivity|].
        split; [by simplify_map_eq|]. split; [by simplify_map_eq|].
        split; [|split; [by simplify_map_eq|]].
        -- intros k Hk. unfold paid_result.
           repeat (apply elem_of_cons in Hk as [->|Hk]); try by simplify_map_eq.
           by apply elem_of_nil in Hk.
        -- cbn. by rewrite <- app_assoc.
  - eexists _, _. split; [reflexivity|]. done.
Qed.

(** X8: when the create call ends with a status other than 400 and 404,
    [create_payment_session] is that one [paid_api_call]: same result, same
    final state. *)
Theorem create_payment_session_passthrough w amount currency memo s d s' z :
  paid_api_call w "create_payment" amount currency (memo_metadata memo) 30 s = (Ok d, s') ->
  d !! "status_code" = Some (VInt z) -> z ≠ 400 -> z ≠ 404 ->
  create_payment_session w amount currency memo s = (Ok d, s').
Proof.
  intros E Hz H400 H404. unfold create_payment_session, bind at 1. rewrite E.
  rewrite (dict_get_lookup _ _ _ _ Hz). cbn [eq_int].
  apply Z.eqb_neq in H400, H404. by rewrite H400, H404.
Qed.

(** X9: when the create call ends with status 400,
    [create_payment_session] posts to [/verify], probes [/list], and returns
    the create result (not the verify result, which is dropped) with
    ["diagnostics"] holding the note and the probe's result. *)
Theorem create_payment_session_400 w amount currency memo s d1 s1 :
  paid_api_call w "create_payment" amount currency (memo_metadata memo) 30 s = (Ok d1, s1) ->
  d1 !! "status_code" = Some (VInt 400) ->
  exists d2 s2,
    paid_api_call w "verify" amount currency (memo_metadata memo) 30 s1 = (Ok d2, s2) /\
    create_payment_session w amount currency memo s =
      (Ok (<["diagnostics" :=
               VDict {[ "note" := VStr "create_payment returned 400; see response_text and request_body";
                        "facilitator_list" :=
                          VDict (probe_info (transport w (trace s2) (probe_request s2 5))) ]}]> d1),
       set_facilitator_info (probe_info (transport w (trace s2) (probe_request s2 5)))
                            (log (EvHttp (probe_request s2 5)) s2)).
Proof.
  intros E1 H1.
  destruct (paid_api_call_spec w "create_payment" amount currency (memo_metadata memo) 30 s)
    as (d1' & s1' & E1' & Hp1).
  rewrite E1 in E1'. injection E1' as <- <-.
  destruct (paid_api_call_spec w "verify" amount currency (memo_metadata memo) 30 s1)
    as (d2 & s2 & E2 & Hp2).
  exists d2, s2. split; [done|].
  unfold create_payment_session, bind at 1. rewrite E1.
  rewrite (dict_get_lookup _ _ _ _ H1). cbn [eq_int].
  change (400 =? 404) with false. change (400 =? 400) with true. cbv iota.
  unfold bind at 1. rewrite E2.
  unfold setdefault. rewrite (pp_diag _ _ _ _ _ Hp1).
  unfold bind at 1, lift at 1, set_nested at 1. rewrite lookup_insert_eq. cbv beta iota.
  unfold bind at 1. rewrite discover_facilitator_run. cbv zeta.
  unfold bind, lift, set_nested, ret. rewrite lookup_insert_eq. cbv beta iota.
  rewrite !insert_insert_eq, insert_empty. reflexivity.
Qed.

(** X10: when the create stage ends with a status outside [200, 300) and
    other than 400 and 404 (a transport failure included),
    [complete_payment_flow] marks verify and settle with their skip
    sentinels and issues no further request. *)
Theorem flow_stops_after_failed_create w amount currency memo timeout s r1 s1 c z :
  create_stage w amount currency memo s = (Ok r1, s1) ->
  r1 !! "create" = Some (VDict c) -> c !! "status_code" = Some (VInt z) ->
  in_2xx z = false -> z ≠ 400 -> z ≠ 404 ->
  complete_payment_flow w amount currency memo timeout s =
    (Ok (<["settle" := VDict skip_settle]> (<["verify" := VDict skip_verify]> r1)), s1).
Proof.
  intros Hcs Hr Hc H2 H400 H404.
  unfold complete_payment_flow, bind at 1. rewrite Hcs.
  unfold bind at 1, try_ at 1, bind at 1.
  assert (verify_stage w r1 amount currency memo timeout s1 = (Ok skip_verify, s1)) as ->.
  { unfold verify_stage, bind, lift.
    rewrite (dict_get_lookup _ _ _ _ Hr), (py_get_status _ _ Hc). cbn [as_int]. rewrite H2.
    apply Z.eqb_neq in H400, H404. by rewrite H400, H404. }
  unfold ret at 1. unfold bind at 1, try_ at 1, bind at 1.
  rewrite (settle_stage_skipped w _ skip_verify 0) by (done || by simplify_map_eq).
  reflexivity.
Qed.

(** X11: when the facilitator answers the create and the verify call with
    2xx, [complete_payment_flow] is the three calls in sequence: the create
    and verify stages are the plain results of those two responses, without
    diagnostics, and the settle stage is the result of [paid_api_call] on
    [/settle] issued right after them. *)
Theorem flow_happy_path w amount currency memo timeout s r1 r2 :
  transport w (trace s)
    (paid_request s "create_payment" amount currency (memo_metadata memo) 30) = Ok r1 ->
  in_2xx (resp_status r1) = true ->
  transport w (trace s ++ [EvHttp (paid_request s "create_payment" amount currency
                                     (memo_metadata memo) 30)])
    (paid_request s "verify" amount currency (memo_metadata memo) timeout) = Ok r2 ->
  in_2xx (resp_status r2) = true ->
  exists d3 s3,
    paid_api_call w "settle" amount currency (memo_metadata memo) timeout
      (log (EvHttp (paid_request s "verify" amount currency (memo_metadata memo) timeout))
         (log (EvHttp (paid_request s "create_payment" amount currency
                         (memo_metadata memo) 30)) s)) = (Ok d3, s3) /\
    complete_payment_flow w amount currency memo timeout s =
      (Ok (<["settle" := VDict d3]>
             (<["verify" := VDict (paid_result r2)]>
                (<["create" := VDict (paid_result r1)]> ∅))), s3).
Proof.
  intros H1 Hz1 H2 Hz2.
  set (q1 := paid_request s "create_payment" amount currency (memo_metadata memo) 30) in *.
  set (q2 := paid_request s "verify" amount currency (memo_metadata memo) timeout) in *.
  pose proof (paid_api_call_2xx w "create_payment" amount currency (memo_metadata memo) 30
                s r1 H1 Hz1) as E1. fold q1 in E1.
  assert (paid_result r1 !! "status_code" = Some (VInt (resp_status r1))) as Hs1
    by (unfold paid_result; by simplify_map_eq).
  assert (paid_result r2 !! "status_code" = Some (VInt (resp_status r2))) as Hs2
    by (unfold paid_result; by simplify_map_eq).
  assert (resp_status r1 ≠ 400 /\ resp_status r1 ≠ 404) as [N400 N404].
  { unfold in_2xx in Hz1. apply andb_true_iff in Hz1 as [_ Hz1]. apply Z.ltb_lt in Hz1. lia. }
  assert (create_payment_session w amount currency memo s = (Ok (paid_result r1), log (EvHttp q1) s)) as Ec.
  { unfold create_payment_session, bind at 1. rewrite E1.
    rewrite (dict_get_lookup _ _ _ _ Hs1). cbn [eq_int].
    apply Z.eqb_neq in N400, N404. by rewrite N400, N404. }
  pose proof (paid_api_call_2xx w "verify" amount currency (memo_metadata memo) timeout
                (log (EvHttp q1) s) r2) as E2.
  change (paid_request (log (EvHttp q1) s) "verify" amount currency (memo_metadata memo) timeout)
    with q2 in E2.
  specialize (E2 H2 Hz2).
  destruct (paid_api_call_spec w "settle" amount currency (memo_metadata memo) timeout
              (log (EvHttp q2) (log (EvHttp q1) s))) as (d3 & s3 & E3 & _).
  exists d3, s3. split; [exact E3|].
  unfold complete_payment_flow, create_stage, bind at 1, try_ at 1, bind at 1.
  rewrite Ec. unfold ret at 1.
  unfold bind at 1, try_ at 1, bind at 1.
  assert (verify_stage w (<["create" := VDict (paid_result r1)]> ∅) amount currency memo timeout
            (log (EvHttp q1) s) = (Ok (paid_result r2), log (EvHttp q2) (log (EvHttp q1) s))) as ->.
  { unfold verify_stage, bind, lift.
    rewrite (dict_get_lookup _ _ (VDict (paid_result r1))) by by simplify_map_eq.
    rewrite (py_get_status _ _ Hs1). cbn [as_int]. by rewrite Hz1. }
  unfold ret at 1. unfold bind at 1, try_ at 1, bind at 1.
  assert (settle_stage w (<["verify" := VDict (paid_result r2)]>
                            (<["create" := VDict (paid_result r1)]> ∅))
            amount currency memo timeout (log (EvHttp q2) (log (EvHttp q1) s)) = (Ok d3, s3)) as ->.
  { unfold settle_stage, bind, lift.
    rewrite (dict_get_lookup _ _ (VDict (paid_result r2))) by by simplify_map_eq.
    rewrite (py_get_status _ _ Hs2). cbn [as_int]. by rewrite Hz2. }
  reflexivity.
Qed.

(** X13: [init_wallet] hands [eth_account] the key with a leading ["0x"]
    ensured, [_derive_address_from_private_key] hands it the key as given:
    the two derive the same address for a key that starts with ["0x"], and
    may differ for one that does not. *)
Theorem key_prefix_handling w s p acc :
  Account w = Some acc -> wallet_private_key s = Some p -> p ≠ "" -> wallet_address s = None ->
  wallet_address (init_wallet w s).2 =
    match from_key acc (Some (if startswith "0x" p then p else "0x" +:+ p)) with
    | Ok a => Some a
    | Raise _ => None
    end /\
  _derive_address_from_private_key w (Some p) =
    match from_key acc (Some p) with
    | Ok a => Some a
    | Raise _ => None
    end.
Proof.
  intros Ha Hk Hp Hw.
  assert (truthy_opt (Some p) = true) as Ht.
  { unfold truthy_opt. cbn. by apply negb_true_iff, String.eqb_neq. }
  split.
  - unfold init_wallet. rewrite Ha. unfold bind, get, lift, modify, ret. rewrite Hk.
    unfold with_0x. rewrite Ht. cbn [andb].
    destruct (startswith "0x" p); cbn [negb];
      destruct (from_key acc _); cbn [snd wallet_address set_wallet]; done.
  - unfold _derive_address_from_private_key. rewrite Ht, Ha. done.
Qed.

Lemma or_opt_default_is_Some (a : option string) (d : string) :
  exists x, or_opt a (Some d) = Some x.
Proof.
  unfold or_opt. destruct (truthy_opt a) eqn:E; [|by eexists].
  destruct a; [by eexists|done].
Qed.

(** X14: in the intent [_build_eip712_intent] builds, the fields declared
    under [types.Payment] are exactly the keys of [message], the fields
    declared under [types.EIP712Domain] are exactly the keys of [domain],
    and every value of [message] is a string, never null. *)
Theorem intent_message_is_well_typed w s amount currency memo :
  exists types domain message,
    _build_eip712_intent w s amount currency memo !! "types" = Some (VDict types) /\
    _build_eip712_intent w s amount currency memo !! "domain" = Some (VDict domain) /\
    _build_eip712_intent w s amount currency memo !! "message" = Some (VDict message) /\
    (forall k, k ∈ field_names (default VNone (types !! "Payment")) <-> is_Some (message !! k)) /\
    (forall k, k ∈ field_names (default VNone (types !! "EIP712Domain")) <-> is_Some (domain !! k)) /\
    (forall k v, message !! k = Some v -> exists str, v = VStr str).
Proof.
  unfold _build_eip712_intent. eexists _, _, _.
  split; [by simplify_map_eq|]. split; [by simplify_map_eq|]. split; [by simplify_map_eq|].
  destruct (or_opt_default_is_Some (wallet_address s) zero_address) as [x1 ->].
  destruct (or_opt_default_is_Some (getenv w "ADDRESS") zero_address) as [x2 ->].
  destruct (or_opt_default_is_Some (getenv w "PAYAI_MERCHANT_ADDRESS") x2) as [x3 ->].
  destruct (or_opt_default_is_Some memo "") as [x4 ->].
  destruct (or_opt_default_is_Some (network s) "") as [x5 ->].
  cbn [of_opt].
  split; [|split].
  - intros k. rewrite <- elem_of_dom, !dom_insert_L, dom_singleton_L.
    rewrite lookup_insert_ne, lookup_singleton_eq by done. cbn.
    rewrite !lookup_insert_eq.
    rewrite !elem_of_cons, elem_of_nil, !elem_of_union, !elem_of_singleton. tauto.
  - intros k. rewrite <- elem_of_dom, !dom_insert_L, dom_singleton_L.
    rewrite lookup_insert_eq. cbn. rewrite !lookup_insert_eq.
    rewrite !elem_of_cons, elem_of_nil, !elem_of_union, !elem_of_singleton. tauto.
  - intros k v Hk.
    repeat (apply lookup_insert_Some in Hk as [[_ <-]|[_ Hk]]; [by eexists|]).
    apply lookup_singleton_Some in Hk as [_ <-]. by eexists.
Qed.

(** X15: when [eth_account] signs the intent, [verify_with_signature]
    signs once, with the agent's key ([0x] ensured), then posts once to
    [/verify] a body whose ["signature"] is that signature, and returns that
    body under ["request_body"]; the agent's configuration and discovery
    cache are unchanged. *)
Theorem verify_with_signature_signs_once w amount currency memo s acc sig :
  Account w = Some acc ->
  sign_typed acc (_build_eip712_intent w s amount currency memo)
             (with_0x (wallet_private_key s)) = Ok sig ->
  exists d s',
    verify_with_signature w amount currency memo s = (Ok d, s') /\
    trace s' = trace s ++
      [EvSign (_build_eip712_intent w s amount currency memo) (with_0x (wallet_private_key s));
       EvHttp (signed_request s (_build_eip712_intent w s amount currency memo) (Some sig))] /\
    signed_body s (_build_eip712_intent w s amount currency memo) (Some sig) !! "signature"
      = Some (VStr sig) /\
    d !! "request_body" =
      Some (VDict (signed_body s (_build_eip712_intent w s amount currency memo) (Some sig))) /\
    same_config s s' /\ _facilitator_info s' = _facilitator_info s.
Proof.
  intros Ha Hs.
  destruct (verify_with_signature_spec w amount currency memo s) as (d & s' & E & Hp).
  exists d, s'. split; [done|].
  assert (sign_outcome w s (_build_eip712_intent w s amount currency memo)
          = (Some sig, [EvSign (_build_eip712_intent w s amount currency memo)
                               (with_0x (wallet_private_key s))])) as Ho.
  { unfold sign_outcome. by rewrite Ha, Hs. }
  pose proof (sp_trace _ _ _ _ _ Hp) as Ht. pose proof (sp_body _ _ _ _ _ Hp) as Hb.
  rewrite Ho in Ht, Hb. cbn [fst snd] in Ht, Hb.
  split; [exact Ht|]. split; [unfold signed_body; by simplify_map_eq|].
  split; [exact Hb|]. split; [apply Hp|apply Hp].
Qed.


Lemma unusable_probe_info o : unusable (probe_info o) = Ok (probe_bad o).
Proof.
  destruct o as [r|e]; [|done]. unfold unusable, probe_info, probe_bad.
  rewrite !(dict_get_lookup _ _ (VInt (resp_status r))) by by simplify_map_eq.
  cbn. by destruct (resp_status r =? 0).
Qed.

Lemma constructor_run w url key net t0 :
  X402PaymentAgent w url key net t0 =
    (Ok tt,
     let a1 := configured w url key net t0 in
     let o1 := transport w t0 (probe_request a1 3) in
     let a2 := set_facilitator_info (probe_info o1) (log (EvHttp (probe_request a1 3)) a1) in
     if probe_bad o1 then
       let a3 := set_facilitator_url (mock_url w) a2 in
       set_facilitator_info (probe_info (transport w (trace a3) (probe_request a3 5)))
                            (log (EvHttp (probe_request a3 5)) a3)
     else a2).
Proof.
  unfold X402PaymentAgent, __init__.
  unfold bind at 1, modify at 1. cbn [fst snd _facilitator_info trace].
  unfold bind at 1, get at 1.
  set (k := or_opt (or_opt key (getenv w "X402_PRIVATE_KEY")) (getenv w "PAYAI_WALLET_PRIVATE_KEY")).
  set (a0 := Agent _ k _ None None ∅ t0). cbn [wallet_private_key a0].
  assert ((if truthy_opt k then try_ (init_wallet w ;;; ret tt) (fun _ => ret tt) else ret tt) a0
          = (Ok tt, configured w url key net t0)) as Hw.
  { unfold configured, derived_address. fold k. destruct (truthy_opt k); [|done].
    unfold try_, init_wallet. destruct (Account w) as [acc|]; [|done].
    unfold bind, get, lift, modify, ret. cbn [wallet_private_key a0].
    by destruct (from_key acc (with_0x k)). }
  unfold bind at 1. rewrite Hw.
  unfold bind at 1, modify at 1.
  assert (set_facilitator_info ∅ (configured w url key net t0) = configured w url key net t0)
    as -> by done.
  unfold try_ at 1, bind at 1. rewrite discover_facilitator_run. cbv zeta.
  unfold bind at 1, lift at 1. rewrite unusable_probe_info.
  change (trace (configured w url key net t0)) with t0.
  destruct (probe_bad _); [|done].
  unfold fall_back, bind at 1, modify at 1, try_, bind. rewrite discover_facilitator_run.
  reflexivity.
Qed.

Lemma has_status_probe_info o : has_status (probe_info o).
Proof. destruct o as [r|e]; [exists (resp_status r); cbn; by simplify_map_eq|by exists 0]. Qed.

(** X17: the constructor raises only when the base class constructor or
    [httpx.Client(timeout=30)] raises, and then with that exception and
    before anything is sent.  Once both have returned it never raises,
    whatever the wallet and the network do: the key and the network come
    from the arguments, then the environment; the wallet address is the one
    derived from the key, or [None] when there is no key, no [eth_account]
    or the derivation raises; the discovery cache holds a probe's result;
    the URL is the primary or the mock one; one or two probes were issued. *)
Theorem constructor_raises_only_from_setup w su url key net t0 :
  match super_init su, new_client su with
  | Raise e, _ | Ok _, Raise e =>
      new_X402PaymentAgent w su url key net t0 = (Raise e, t0)
  | Ok _, Ok _ =>
      exists a,
        new_X402PaymentAgent w su url key net t0 = (Ok a, trace a) /\
        X402PaymentAgent w url key net t0 = (Ok tt, a) /\
        wallet_private_key a = or_opt (or_opt key (getenv w "X402_PRIVATE_KEY"))
                                      (getenv w "PAYAI_WALLET_PRIVATE_KEY") /\
        network a = or_opt net (getenv w "X402_NETWORK") /\
        wallet_address a = derived_address w (wallet_private_key a) /\
        account a = wallet_address a /\
        has_status (_facilitator_info a) /\
        (facilitator_url a = primary_url w url \/ facilitator_url a = mock_url w) /\
        exists ev, trace a = t0 ++ ev /\ (length ev = 1 \/ length ev = 2)%nat
  end.
Proof.
  unfold new_X402PaymentAgent.
  destruct (super_init su) as [[]|e]; [|done].
  destruct (new_client su) as [[]|e]; [|done].
  rewrite constructor_run. cbv zeta. eexists. split; [reflexivity|]. split; [reflexivity|].
  destruct (probe_bad _).
  - cbn [wallet_private_key network wallet_address account _facilitator_info facilitator_url
           trace set_facilitator_info set_facilitator_url log set_trace configured].
    repeat split; try done; [apply has_status_probe_info|by right|].
    eexists. rewrite <- app_assoc. split; [reflexivity|by right].
  - cbn [wallet_private_key network wallet_address account _facilitator_info facilitator_url
           trace set_facilitator_info set_facilitator_url log set_trace configured].
    repeat split; try done; [apply has_status_probe_info|by left|].
    eexists. split; [reflexivity|by left].
Qed.


(** X18: when the facilitator answers the constructor's probe with a
    status other than 0 and below 500 (a 4xx included), the agent keeps the
    primary URL, has issued that single probe, and caches its result. *)
Theorem constructor_keeps_answering_facilitator w url key net t0 r :
  transport w t0 (list_request (primary_url w url) 3) = Ok r ->
  resp_status r ≠ 0 -> resp_status r < 500 ->
  exists a,
    X402PaymentAgent w url key net t0 = (Ok tt, a) /\
    facilitator_url a = primary_url w url /\
    trace a = t0 ++ [EvHttp (list_request (primary_url w url) 3)] /\
    _facilitator_info a = paid_result r.
Proof.
  intros Ho H0 H5. rewrite constructor_run. cbv zeta. eexists. split; [reflexivity|].
  change (probe_request (configured w url key net t0) 3) with (list_request (primary_url w url) 3).
  rewrite Ho. cbn [probe_bad].
  apply Z.eqb_neq in H0. rewrite H0. cbn [orb].
  assert ((500 <=? resp_status r) = false) as -> by (apply Z.leb_gt; lia).
  done.
Qed.

Lemma truthy_has_status d : has_status d -> truthy (VDict d) = true.
Proof.
  intros [z Hz]. cbn. apply negb_true_iff, bool_decide_eq_false. intros ->.
  by rewrite lookup_empty in Hz.
Qed.

Lemma paid_api_call_known w path amount currency metadata timeout s :
  info_known s ->
  exists d,
    paid_api_call w path amount currency metadata timeout s =
      (Ok d, log (EvHttp (paid_request s path amount currency metadata timeout)) s) /\
    d !! "facilitator_info" = None.
Proof.
  intros Hk. apply truthy_has_status in Hk.
  unfold paid_api_call, bind at 1, get, try_ at 1, bind at 1, http_post, on_trace, client_request.
  fold (paid_request s path amount currency metadata timeout).
  destruct (transport w (trace s) _) as [r|e].
  - destruct (in_2xx (resp_status r)); cbn [negb].
    + eexists. split; [reflexivity|by simplify_map_eq].
    + unfold bind at 1, get. cbn [_facilitator_info set_trace]. rewrite Hk. cbn [negb].
      eexists. split; [reflexivity|by simplify_map_eq].
  - eexists. split; [reflexivity|by simplify_map_eq].
Qed.

Lemma wp_paid_known w path a c m t (Q : res dict -> agent -> Prop) s :
  info_known s ->
  (forall d, Q (Ok d) (log (EvHttp (paid_request s path a c m t)) s)) ->
  wp (paid_api_call w path a c m t) Q s.
Proof.
  intros Hk H. destruct (paid_api_call_known w path a c m t s Hk) as (d & E & _).
  unfold wp. rewrite E. apply H.
Qed.

Lemma info_known_log e s : info_known s -> info_known (log e s).
Proof. done. Qed.

Lemma create_payment_session_known w a c m s :
  info_known s -> info_known (create_payment_session w a c m s).2.
Proof.
  intros Hk. change (wp (create_payment_session w a c m) (fun _ s' => info_known s') s).
  unfold create_payment_session.
  apply wp_bind, wp_paid_known; [done|]. intros d1.
  destruct (eq_int _ 404).
  - apply wp_bind, wp_paid_known; [done|]. intros d2.
    apply wp_bind, wp_lift. destruct (as_int _) as [z|e]; [|done].
    destruct (in_2xx z); [|by apply wp_ret].
    apply wp_bind, wp_lift. destruct (py_get _ _ _); [|done].
    apply wp_bind, wp_lift. destruct (py_get _ _ _); [|done].
    by apply wp_ret.
  - destruct (eq_int _ 400); [|by apply wp_ret].
    apply wp_bind, wp_paid_known; [done|]. intros d2.
    apply wp_bind, wp_lift. destruct (set_nested _ _ _ _); [|done].
    apply wp_bind, wp_discover. apply wp_bind, wp_lift.
    destruct (set_nested _ _ _ _); [apply wp_ret|]; apply has_status_probe_info.
Qed.

Lemma verify_with_signature_known w a c m s :
  info_known s -> info_known (verify_with_signature w a c m s).2.
Proof.
  intros Hk. destruct (verify_with_signature_spec w a c m s) as (d & s' & E & Hp).
  rewrite E. cbn [snd]. unfold info_known. by rewrite (sp_info _ _ _ _ _ Hp).
Qed.

Lemma verify_stage_known w r a c m t s :
  info_known s -> info_known (verify_stage w r a c m t s).2.
Proof.
  intros Hk. change (wp (verify_stage w r a c m t) (fun _ s' => info_known s') s).
  unfold verify_stage.
  apply wp_bind, wp_lift. destruct (py_get _ _ _); [|done].
  apply wp_bind, wp_lift. destruct (as_int _) as [z|e]; [|done].
  destruct (in_2xx z); [by apply wp_paid_known|].
  destruct (_ || _); [|by apply wp_ret].
  apply wp_bind, wp_paid_known; [done|]. intros d.
  apply wp_bind, wp_lift. destruct (as_int _) as [z'|e]; [|done].
  destruct (negb (in_2xx z')); [|by apply wp_ret].
  apply wp_bind. unfold wp at 1.
  pose proof (verify_with_signature_known w a c m _ (info_known_log (EvHttp
                (paid_request s "verify" a c (memo_metadata m) t)) s Hk)) as Hs.
  destruct (verify_with_signature w a c m _) as [[sig|e] s2]; cbn [fst snd] in *; [|done].
  apply wp_bind, wp_lift. destruct (as_int _) as [z''|e]; [|done].
  destruct (in_2xx z''); by apply wp_ret.
Qed.

Lemma settle_stage_known w r a c m t s :
  info_known s -> info_known (settle_stage w r a c m t s).2.
Proof.
  intros Hk. change (wp (settle_stage w r a c m t) (fun _ s' => info_known s') s).
  unfold settle_stage.
  apply wp_bind, wp_lift. destruct (py_get _ _ _); [|done].
  apply wp_bind, wp_lift. destruct (as_int _) as [z|e]; [|done].
  destruct (in_2xx z); [by apply wp_paid_known|].
  destruct (_ || _); [|by apply wp_ret].
  apply wp_bind, wp_paid_known; [done|]. intros d. by apply wp_ret.
Qed.

Lemma run_call_known w c s : info_known s -> info_known (run_call w c s).
Proof.
  intros Hk. destruct c as [t|p a cur m t|a cur m|a cur m|a cur m t|]; cbn [run_call].
  - rewrite discover_facilitator_run. apply has_status_probe_info.
  - destruct (paid_api_call_known w p a cur m t s Hk) as (d & -> & _). done.
  - by apply create_payment_session_known.
  - by apply verify_with_signature_known.
  - pose proof (flow_run w a cur m t s) as [_ ->].
    apply settle_stage_known, verify_stage_known. by apply create_payment_session_known.
  - unfold init_wallet. destruct (Account w) as [acc|]; [|done].
    unfold bind, get, lift, modify, ret. by destruct (from_key acc _).
Qed.

Lemma session_known w cs s : info_known s -> info_known (session w cs s).
Proof.
  revert s. induction cs as [|c cs IH]; intros s Hk; [done|].
  apply IH. by apply run_call_known.
Qed.

(** X19: on an agent built by the constructor, after any sequence of
    calls, the discovery cache holds a probe's result; so [paid_api_call]
    issues exactly one request and never adds ["facilitator_info"]. *)
Theorem built_agent_never_probes w url key net t0 cs path amount currency metadata timeout :
  info_known (built w url key net t0 cs) /\
  exists d,
    paid_api_call w path amount currency metadata timeout (built w url key net t0 cs) =
      (Ok d, log (EvHttp (paid_request (built w url key net t0 cs) path amount currency
                            metadata timeout))
                 (built w url key net t0 cs)) /\
    d !! "facilitator_info" = None.
Proof.
  assert (info_known (built w url key net t0 cs)) as Hk.
  { apply session_known. rewrite constructor_run. cbv zeta. cbn [snd].
    destruct (probe_bad _); apply has_status_probe_info. }
  split; [exact Hk|]. by apply paid_api_call_known.
Qed.

(** X12: after a create stage with status 400 or 404, a plain verify that
    succeeds (2xx) is kept as the verify stage with the create stage
    attached under [diagnostics.create_response]; nothing is signed, and
    settle is the plain [paid_api_call] on [/settle]. *)
Theorem verify_after_create_fallback_carries_create
    w amount currency memo timeout s r1 s1 c z plain s2 zp :
  create_stage w amount currency memo s = (Ok r1, s1) ->
  r1 !! "create" = Some (VDict c) ->
  c !! "status_code" = Some (VInt z) ->
  z = 400 \/ z = 404 ->
  paid_api_call w "verify" amount currency (memo_metadata memo) timeout s1 = (Ok plain, s2) ->
  plain !! "status_code" = Some (VInt zp) ->
  in_2xx zp = true ->
  exists st s3,
    paid_api_call w "settle" amount currency (memo_metadata memo) timeout s2 = (Ok st, s3) /\
    complete_payment_flow w amount currency memo timeout s =
      (Ok (<["settle" := VDict st]>
             (<["verify" := VDict (<["diagnostics" := VDict {[ "create_response" := VDict c ]}]> plain)]>
                r1)), s3).
Proof.
  intros Hcs Hr Hc Hz Hplain Hzp H2.
  destruct (paid_api_call_spec w "verify" amount currency (memo_metadata memo) timeout s1)
    as (plain' & s2' & E & Hp).
  rewrite Hplain in E. injection E as <- <-.
  destruct (paid_api_call_spec w "settle" amount currency (memo_metadata memo) timeout s2)
    as (st & s3 & E3 & _).
  exists st, s3. split; [exact E3|].
  unfold complete_payment_flow, bind at 1. rewrite Hcs.
  unfold bind at 1, try_ at 1, bind at 1.
  assert (verify_stage w r1 amount currency memo timeout s1 =
            (Ok (<["diagnostics" := VDict {[ "create_response" := VDict c ]}]> plain), s2)) as ->.
  { unfold verify_stage, bind, lift.
    rewrite !(dict_get_lookup _ _ _ _ Hr), (py_get_status _ _ Hc). cbn [as_int].
    assert (in_2xx z = false) as -> by (by destruct Hz as [-> | ->]).
    assert ((z =? 400) || (z =? 404) = true) as -> by (by destruct Hz as [-> | ->]).
    rewrite Hplain, (dict_get_lookup _ _ _ _ Hzp). cbn [as_int]. rewrite H2. cbn [negb].
    unfold ret. do 2 f_equal. cbn [best_effort]. unfold setdefault.
    rewrite (pp_diag _ _ _ _ _ Hp). unfold set_nested. rewrite lookup_insert_eq. cbv beta iota.
    by rewrite insert_insert_eq, insert_empty. }
  unfold ret at 1. unfold bind at 1, try_ at 1, bind at 1.
  assert (settle_stage w (<["verify" := VDict (<["diagnostics" :=
                             VDict {[ "create_response" := VDict c ]}]> plain)]> r1)
            amount currency memo timeout s2 = (Ok st, s3)) as ->.
  { unfold settle_stage, bind, lift.
    rewrite (dict_get_lookup _ _ (VDict (<["diagnostics" :=
               VDict {[ "create_response" := VDict c ]}]> plain))) by by simplify_map_eq.
    rewrite (py_get_status _ zp) by by simplify_map_eq.
    cbn [as_int]. by rewrite H2. }
  reflexivity.
Qed.

Lemma ends_with_refl p : ends_with p p = true.
Proof. destruct p; cbn; [done|]. by rewrite Ascii.eqb_refl, String.eqb_refl. Qed.

Lemma ends_with_suffix b p : ends_with p (b +:+ p) = true.
Proof. rewrite ends_with_app by lia. apply ends_with_refl. Qed.

Lemma drop_last_cons x s : s <> EmptyString -> drop_last (String x s) = String x (drop_last s).
Proof. by destruct s. Qed.

Lemma drop_last_app b c d : drop_last (b +:+ String c (String d "")) = b +:+ String c "".
Proof.
  induction b as [|x b IH]; [done|].
  change (String x b +:+ String c (String d "")) with (String x (b +:+ String c (String d ""))).
  rewrite drop_last_cons by by destruct b.
  by rewrite IH.
Qed.

Lemma startswith_iff p s : startswith p s = true <-> exists rest, s = p +:+ rest.
Proof.
  revert s. induction p as [|a p IH]; intros s; cbn [startswith].
  - split; [by exists s|done].
  - destruct s as [|b s]; [split; [done|by intros [rest ?]]|].
    rewrite andb_true_iff, Ascii.eqb_eq, IH. split.
    + intros [-> [rest ->]]. by exists rest.
    + intros [rest E]. cbn in E. injection E as -> ->. split; [done|by exists rest].
Qed.

Lemma append_assoc (a b c : string) : (a +:+ b) +:+ c = a +:+ (b +:+ c).
Proof.
  induction a as [|x a IH]; [done|].
  change (String x ((a +:+ b) +:+ c) = String x (a +:+ (b +:+ c))). by rewrite IH.
Qed.

(** X20: [_match] of the payment middleware.  A pattern [base/*] matches
    exactly the paths that extend [base/], so not [base] itself; any other
    pattern matches only the path equal to it. *)
Theorem match_semantics :
  (forall base path,
     _match path (base +:+ "/*") = true <-> exists rest, path = base +:+ "/" +:+ rest) /\
  (forall base, _match base (base +:+ "/*") = false) /\
  (forall pattern path,
     ends_with "/*" pattern = false -> (_match path pattern = true <-> path = pattern)).
Proof.
  assert (forall base path,
            _match path (base +:+ "/*") = true <-> exists rest, path = base +:+ "/" +:+ rest) as H1.
  { intros base path. unfold _match. rewrite ends_with_suffix.
    rewrite (drop_last_app base "/" "*"), startswith_iff.
    split; intros [rest ->]; exists rest; [apply append_assoc|symmetry; apply append_assoc]. }
  split; [exact H1|]. split.
  - intros base. apply not_true_iff_false. rewrite H1. intros [rest E].
    apply (f_equal String.length) in E. rewrite !length_append in E. cbn in E. lia.
  - intros pattern path Hp. unfold _match. rewrite Hp. apply String.eqb_eq.
Qed.

Lemma x402_payment_full_flow_stops_witness :
  status_of (stage "verify" (outcome (full rejecting_verify).1)) = 400 /\
  outcome (full rejecting_verify).1 !! "settle" = Some (VDict skip_settle) /\
  exists ev, (full rejecting_verify).2 = [] ++ ev /\
             Forall (fun e => posts_to "/settle" e = false) ev.
Proof.
  split; [vm_compute; reflexivity|].
  apply (proj2 (x402_payment_full_flow_stops rejecting_verify cent "USD" None None None None []
                  (outcome (full rejecting_verify).1) (full rejecting_verify).2
                  ltac:(vm_compute; reflexivity))
           (stage "verify" (outcome (full rejecting_verify).1)) 400).
  - vm_compute; reflexivity.
  - vm_compute; reflexivity.
  - reflexivity.
Defined.

Lemma network_env_only_in_tool_witness :
  tool_payload on_base cent "USD" None None None !! "network" = Some (VStr "base") /\
  full_flow_payload on_base cent "USD" None None None !! "network" = None.
Proof.
  apply (network_env_only_in_tool on_base cent "USD" None None "base").
  - reflexivity.
  - discriminate.
Defined.

Lemma create_payment_session_passthrough_witness :
  status_of (outcome (create_call rejecting_verify).1) = 200 /\
  create_payment_session rejecting_verify cent "USD" None (started rejecting_verify) =
    (Ok (outcome (create_call rejecting_verify).1), (create_call rejecting_verify).2).
Proof.
  split; [vm_compute; reflexivity|].
  apply (create_payment_session_passthrough rejecting_verify cent "USD" None
           (started rejecting_verify) (outcome (create_call rejecting_verify).1)
           (create_call rejecting_verify).2 200).
  - vm_compute; reflexivity.
  - vm_compute; reflexivity.
  - lia.
  - lia.
Defined.

Lemma create_payment_session_400_witness :
  exists d2 s2,
    paid_api_call skipping_create "verify" cent "USD" (memo_metadata None) 30
      (create_call skipping_create).2 = (Ok d2, s2) /\
    create_payment_session skipping_create cent "USD" None (started skipping_create) =
      (Ok (<["diagnostics" :=
               VDict {[ "note" := VStr "create_payment returned 400; see response_text and request_body";
                        "facilitator_list" :=
                          VDict (probe_info (transport skipping_create (trace s2)
                                               (probe_request s2 5))) ]}]>
             (outcome (create_call skipping_create).1)),
       set_facilitator_info (probe_info (transport skipping_create (trace s2) (probe_request s2 5)))
                            (log (EvHttp (probe_request s2 5)) s2)).
Proof.
  apply (create_payment_session_400 skipping_create cent "USD" None (started skipping_create)
           (outcome (create_call skipping_create).1) (create_call skipping_create).2).
  - vm_compute; reflexivity.
  - vm_compute; reflexivity.
Defined.

Lemma flow_stops_after_failed_create_witness :
  status_of (stage "create" (outcome (created offline).1)) = 0 /\
  complete_payment_flow offline cent "USD" None 30 (started offline) =
    (Ok (<["settle" := VDict skip_settle]>
           (<["verify" := VDict skip_verify]> (outcome (created offline).1))),
     (created offline).2).
Proof.
  split; [vm_compute; reflexivity|].
  apply (flow_stops_after_failed_create offline cent "USD" None 30 (started offline)
           (outcome (created offline).1) (created offline).2
           (stage "create" (outcome (created offline).1)) 0).
  - vm_compute; reflexivity.
  - vm_compute; reflexivity.
  - vm_compute; reflexivity.
  - reflexivity.
  - lia.
  - lia.
Defined.

Lemma flow_happy_path_witness :
  exists d3 s3,
    paid_api_call accepting "settle" cent "USD" (memo_metadata None) 30
      (log (EvHttp (paid_request (started accepting) "verify" cent "USD" (memo_metadata None) 30))
         (log (EvHttp (paid_request (started accepting) "create_payment" cent "USD"
                         (memo_metadata None) 30)) (started accepting))) = (Ok d3, s3) /\
    complete_payment_flow accepting cent "USD" None 30 (started accepting) =
      (Ok (<["settle" := VDict d3]>
             (<["verify" := VDict (paid_result (Response 200 (Some (VDict ∅)) "{}" ∅))]>
                (<["create" := VDict (paid_result (Response 200 (Some (VDict ∅)) "{}" ∅))]> ∅))), s3).
Proof.
  apply (flow_happy_path accepting cent "USD" None 30 (started accepting)
           (Response 200 (Some (VDict ∅)) "{}" ∅) (Response 200 (Some (VDict ∅)) "{}" ∅)).
  - vm_compute; reflexivity.
  - reflexivity.
  - vm_compute; reflexivity.
  - reflexivity.
Defined.

Lemma verify_after_create_fallback_carries_create_witness :
  status_of (stage "create" (outcome (created skipping_create).1)) = 400 /\
  status_of (outcome (plain_verify skipping_create).1) = 200 /\
  exists st s3,
    paid_api_call skipping_create "settle" cent "USD" (memo_metadata None) 30
      (plain_verify skipping_create).2 = (Ok st, s3) /\
    complete_payment_flow skipping_create cent "USD" None 30 (started skipping_create) =
      (Ok (<["settle" := VDict st]>
             (<["verify" := VDict (<["diagnostics" :=
                  VDict {[ "create_response" :=
                             VDict (stage "create" (outcome (created skipping_create).1)) ]}]>
                  (outcome (plain_verify skipping_create).1))]>
                (outcome (created skipping_create).1))), s3).
Proof.
  split; [vm_compute; reflexivity|]. split; [vm_compute; reflexivity|].
  apply (verify_after_create_fallback_carries_create skipping_create cent "USD" None 30
           (started skipping_create) (outcome (created skipping_create).1)
           (created skipping_create).2 (stage "create" (outcome (created skipping_create).1))
           400 (outcome (plain_verify skipping_create).1) (plain_verify skipping_create).2 200).
  - vm_compute; reflexivity.
  - vm_compute; reflexivity.
  - vm_compute; reflexivity.
  - left; reflexivity.
  - vm_compute; reflexivity.
  - vm_compute; reflexivity.
  - reflexivity.
Defined.

Lemma key_prefix_handling_witness :
  wallet_address (init_wallet rejecting_verify bare_key_agent).2 =
    match from_key signer (Some "0xabc") with Ok a => Some a | Raise _ => None end /\
  _derive_address_from_private_key rejecting_verify (Some "abc") =
    match from_key signer (Some "abc") with Ok a => Some a | Raise _ => None end.
Proof.
  apply (key_prefix_handling rejecting_verify bare_key_agent "abc" signer).
  - reflexivity.
  - reflexivity.
  - discriminate.
  - reflexivity.
Defined.

Lemma verify_with_signature_signs_once_witness :
  exists d s',
    verify_with_signature rejecting_verify cent "USD" None (started rejecting_verify) = (Ok d, s') /\
    d !! "request_body" =
      Some (VDict (signed_body (started rejecting_verify)
                     (_build_eip712_intent rejecting_verify (started rejecting_verify)
                        cent "USD" None) (Some "0xsig"))).
Proof.
  destruct (verify_with_signature_signs_once rejecting_verify cent "USD" None
              (started rejecting_verify) signer "0xsig" eq_refl eq_refl)
    as (d & s' & E & _ & _ & Hb & _).
  exists d, s'. split; [exact E|exact Hb].
Defined.

Lemma constructor_keeps_answering_facilitator_witness :
  exists a,
    X402PaymentAgent rejecting_verify default_facilitator_url None None [] = (Ok tt, a) /\
    facilitator_url a = default_facilitator_url /\
    trace a = [] ++ [EvHttp (list_request default_facilitator_url 3)] /\
    _facilitator_info a = paid_result (Response 200 (Some (VDict ∅)) "{}" ∅).
Proof.
  apply (constructor_keeps_answering_facilitator rejecting_verify default_facilitator_url
           None None [] (Response 200 (Some (VDict ∅)) "{}" ∅)).
  - vm_compute; reflexivity.
  - simpl; lia.
  - simpl; lia.
Defined.
